(** * Databricks hook: run states, host normalisation and the retrying API call

    A shallow embedding of [airflow/providers/databricks/hooks/databricks.py].

    Python values are modelled by the types the source annotates them with:
    [str] is [string] (ASCII text), [int] is [Z], an optional [str] is
    [option string], a [dict] with string keys is a [gmap string _]; the
    [float] number of seconds [retry_delay] is a rational, which the hook
    only ever hands to [time.sleep].
    A computation that may raise returns a [Res]; the part of the hook that
    talks to the network threads a [World] that records every request sent,
    every [sleep] and every log record. *)

From Stdlib Require Import ZArith String Ascii List Lia.
From Stdlib Require QArith.QArith_base.
From stdpp Require Import base option list gmap strings pretty.

Local Open Scope string_scope.
Local Open Scope list_scope.
Local Open Scope Z_scope.

(** ** Exceptions and results *)

(** The classes of [requests.exceptions] below [RequestException]
    ([InvalidJSONError] and [JSONDecodeError] exist from requests 2.26 and
    2.27 on). *)
Inductive RequestExceptionClass : Type :=
  | RequestException_ | HTTPError | ConnectionError | ProxyError | SSLError
  | Timeout | ConnectTimeout | ReadTimeout | URLRequired | TooManyRedirects
  | MissingSchema | InvalidSchema | InvalidURL | InvalidHeader | InvalidProxyURL
  | ChunkedEncodingError | ContentDecodingError | StreamConsumedError
  | RetryError | UnrewindableBodyError | InvalidJSONError | JSONDecodeError.

(** The exceptions that can be raised in the functions of this file.
    [RequestError cls] is an instance of the class [cls] of
    [requests.exceptions] that carries no response; [Foreign] is any other
    exception raised by a collaborator, named by its class, which is not an
    instance of [requests.exceptions.RequestException]. *)
Inductive PyExc : Type :=
  | AirflowException (msg : string)
  | ValueError (msg : string)
  | AttributeError (msg : string)
  | Foreign (cls : string) (msg : string)
  | RequestError (cls : RequestExceptionClass).

Inductive Res (A : Type) : Type :=
  | Return (a : A)
  | Raise (e : PyExc).
Arguments Return {A} a.
Arguments Raise {A} e.

Definition res_bind {A B : Type} (m : Res A) (k : A -> Res B) : Res B :=
  match m with
  | Return a => k a
  | Raise e => Raise e
  end.

#[global] Instance res_mret : MRet Res := fun _ a => Return a.
#[global] Instance res_mbind : MBind Res := fun _ _ k m => res_bind m k.

Definition raises {A : Type} (m : Res A) : Prop :=
  match m with
  | Return _ => False
  | Raise _ => True
  end.

(** [x in xs] on a list of strings. *)
Definition str_in (x : string) (xs : list string) : bool :=
  existsb (String.eqb x) xs.

(** [a == b] on values that are a [str] or [None]. *)
Definition opt_str_eqb (a b : option string) : bool :=
  match a, b with
  | Some x, Some y => String.eqb x y
  | None, None => true
  | _, _ => false
  end.

(** ** Run states *)

Definition RUN_LIFE_CYCLE_STATES : list string :=
  ["PENDING"; "RUNNING"; "TERMINATING"; "TERMINATED"; "SKIPPED"; "INTERNAL_ERROR"].

Module RunState.

Record t : Type := mk {
  life_cycle_state : string;
  result_state : option string;
  state_message : string
}.

Definition __init__ (life_cycle_state : string) (result_state : option string)
    (state_message : string) : Res t :=
  Return (mk life_cycle_state result_state state_message).

Definition unexpected_state_message (life_cycle_state : string) : string :=
  "Unexpected life cycle state: " +:+ life_cycle_state +:+
  ": If the state has been introduced recently, please check the Databricks user " +:+
  "guide for troubleshooting information".

Definition is_terminal (self : t) : Res bool :=
  if negb (str_in (life_cycle_state self) RUN_LIFE_CYCLE_STATES) then
    Raise (AirflowException (unexpected_state_message (life_cycle_state self)))
  else
    Return (str_in (life_cycle_state self) ["TERMINATED"; "SKIPPED"; "INTERNAL_ERROR"]).

Definition is_successful (self : t) : Res bool :=
  Return (opt_str_eqb (result_state self) (Some "SUCCESS")).

(** What [__eq__] is compared with: another run state, or any other object. *)
Inductive object : Type :=
  | IsRunState (other : t)
  | NotRunState.

Inductive eq_result : Type :=
  | Bool (b : bool)
  | NotImplemented.

Definition __eq__ (self : t) (other : object) : Res eq_result :=
  match other with
  | NotRunState => Return NotImplemented
  | IsRunState other =>
      Return (Bool (String.eqb (life_cycle_state self) (life_cycle_state other)
                    && opt_str_eqb (result_state self) (result_state other)
                    && String.eqb (state_message self) (state_message other)))
  end.

End RunState.

(** ** Text helpers: the [str] methods the hook relies on *)

Module Str.

(** [all(P(c) for c in s)] *)
Fixpoint all (P : ascii -> bool) (s : string) : bool :=
  match s with
  | EmptyString => true
  | String c s' => P c && all P s'
  end.

(** [c in s] for a single character [c]. *)
Definition contains (c : ascii) (s : string) : bool :=
  negb (all (fun x => negb (Ascii.eqb x c)) s).

(** [s.partition(sep)] for a one-character separator: the text before the
    first [sep], whether [sep] was found, the text after it. Without a
    separator the result is [(s, False, '')]. *)
Fixpoint partition (sep : ascii) (s : string) : string * bool * string :=
  match s with
  | EmptyString => (EmptyString, false, EmptyString)
  | String c s' =>
      if Ascii.eqb c sep then (EmptyString, true, s')
      else let '(h, found, t) := partition sep s' in (String c h, found, t)
  end.

(** [s.rpartition(sep)]: split at the last [sep]; without a separator the
    result is [('', False, s)]. *)
Fixpoint rpartition (sep : ascii) (s : string) : string * bool * string :=
  match s with
  | EmptyString => (EmptyString, false, EmptyString)
  | String c s' =>
      let '(h, found, t) := rpartition sep s' in
      if found then (String c h, true, t)
      else if Ascii.eqb c sep then (EmptyString, true, s')
      else (EmptyString, false, String c t)
  end.

Definition lower_char (c : ascii) : ascii :=
  let n := N_of_ascii c in
  if (65 <=? n)%N && (n <=? 90)%N then ascii_of_N (n + 32) else c.

(** [s.lower()] on ASCII text: the letters [A-Z] are lower-cased and every
    other byte is left alone, so the value is that of [str.lower] only on
    text whose bytes are all below 128. *)
Fixpoint lower (s : string) : string :=
  match s with
  | EmptyString => EmptyString
  | String c s' => String (lower_char c) (lower s')
  end.

Definition is_empty (s : string) : bool :=
  match s with
  | EmptyString => true
  | String _ _ => false
  end.

End Str.

(** ** [urllib.parse.urlparse(url).hostname]

    The standard library function [_parse_host] calls. It is not part of the
    hook; the definitions below follow [urlsplit], [_splitnetloc], [_hostinfo]
    and [hostname] of CPython's [urllib.parse] as shipped with Python 3.8,
    the interpreter this hook was written for. They keep what decides the
    [hostname] attribute: the scheme split, the network location split with
    its square-bracket check, and the host extraction.

    Not modelled: [_checknetloc], which rejects some network locations that
    hold characters outside ASCII; the removal of tab, carriage return and
    line feed that later releases apply to the URL first; the validation of
    a bracketed host that later releases add. The value computed here is
    therefore that of [urlparse] on ASCII text free of those three control
    characters, and statements that depend on the value restrict their
    hosts accordingly. *)

Module Urllib.

Definition is_ascii (c : ascii) : bool := (N_of_ascii c <? 128)%N.

Definition is_digit (c : ascii) : bool :=
  let n := N_of_ascii c in (48 <=? n)%N && (n <=? 57)%N.

Definition is_letter (c : ascii) : bool :=
  let n := N_of_ascii c in
  ((65 <=? n)%N && (n <=? 90)%N) || ((97 <=? n)%N && (n <=? 122)%N).

(** [c in scheme_chars]: letters, digits and [+-.] *)
Definition is_scheme_char (c : ascii) : bool :=
  is_letter c || is_digit c
  || Ascii.eqb c "+" || Ascii.eqb c "-" || Ascii.eqb c ".".

Definition is_netloc_delim (c : ascii) : bool :=
  Ascii.eqb c "/" || Ascii.eqb c "?" || Ascii.eqb c "#".

(** [_splitnetloc(url, 0)]: the text up to the earliest of [/?#], and the
    rest. *)
Fixpoint _splitnetloc (url : string) : string * string :=
  match url with
  | EmptyString => (EmptyString, EmptyString)
  | String c url' =>
      if is_netloc_delim c then (EmptyString, url)
      else let '(domain, rest) := _splitnetloc url' in (String c domain, rest)
  end.

(** The [if url[:2] == '//'] block of [urlsplit]: the network location of
    [url] once its scheme is removed, [''] when there is none. *)
Definition netloc_of (url : string) : Res string :=
  match url with
  | String "/" (String "/" url') =>
      let netloc := fst (_splitnetloc url') in
      if (Str.contains "[" netloc && negb (Str.contains "]" netloc))
         || (Str.contains "]" netloc && negb (Str.contains "[" netloc))
      then Raise (ValueError "Invalid IPv6 URL")
      else Return netloc
  | _ => Return EmptyString
  end.

(** The [netloc] field of [urlsplit(url)]. *)
Definition urlsplit_netloc (url : string) : Res string :=
  let '(head, found, rest) := Str.partition ":" url in
  if found && negb (Str.is_empty head) then
    (* i = url.find(':') is positive *)
    if String.eqb head "http" then netloc_of rest
    else if Str.all is_scheme_char head then
      if Str.is_empty rest || negb (Str.all is_digit rest) then netloc_of rest
      else netloc_of url
    else netloc_of url
  else netloc_of url.

(** [_hostinfo[0]] of a parse result with the given [netloc]. *)
Definition _hostinfo_hostname (netloc : string) : string :=
  let '(_, _, hostinfo) := Str.rpartition "@" netloc in
  let '(_, have_open_br, bracketed) := Str.partition "[" hostinfo in
  if have_open_br then
    let '(hostname, _, _) := Str.partition "]" bracketed in hostname
  else
    let '(hostname, _, _) := Str.partition ":" hostinfo in hostname.

(** The [hostname] property: [None] for an empty host, else the host in
    lower case with its IPv6 zone, if any, left as written. *)
Definition hostname_of_netloc (netloc : string) : option string :=
  let hostname := _hostinfo_hostname netloc in
  if Str.is_empty hostname then None
  else
    let '(hostname, percent, zone) := Str.partition "%" hostname in
    Some (Str.lower hostname +:+ (if percent then "%" else "") +:+ zone).

Definition urlparse_hostname (url : string) : Res (option string) :=
  netloc ← urlsplit_netloc url;
  mret (hostname_of_netloc netloc).

End Urllib.

(** ** The [requests] library, as far as the hook uses it *)

(** A decoded JSON document; also the type of the payload of a call. *)
#[local] Unset Elimination Schemes.
Inductive JSON : Type :=
  | JNull
  | JBool (b : bool)
  | JNumber (n : Z)
  | JString (s : string)
  | JArray (items : list JSON)
  | JObject (members : list (string * JSON)).
#[local] Set Elimination Schemes.

(** Subscripting and [dict.get] on a decoded document. A [JObject] lists the
    items of a [dict], whose keys are distinct; the other documents are not
    mappings and refuse a string key. *)
Module Json.

Fixpoint lookup (key : string) (members : list (string * JSON)) : option JSON :=
  match members with
  | [] => None
  | (k, v) :: members' => if String.eqb k key then Some v else lookup key members'
  end.

(** The name Python gives the type of a document that is not a mapping. *)
Definition type_name (obj : JSON) : string :=
  match obj with
  | JNull => "NoneType"
  | JBool _ => "bool"
  | JNumber _ => "int"
  | JString _ => "str"
  | JArray _ => "list"
  | JObject _ => "dict"
  end.

(** [obj[key]] for a string [key]. *)
Definition getitem (obj : JSON) (key : string) : Res JSON :=
  match obj with
  | JObject members =>
      match lookup key members with
      | Some v => Return v
      | None => Raise (Foreign "KeyError" ("'" +:+ key +:+ "'"))
      end
  | JArray _ =>
      Raise (Foreign "TypeError" "list indices must be integers or slices, not str")
  | JString _ => Raise (Foreign "TypeError" "string indices must be integers")
  | _ => Raise (Foreign "TypeError"
                  ("'" +:+ type_name obj +:+ "' object is not subscriptable"))
  end.

(** [obj.get(key, default)]. *)
Definition get (obj : JSON) (key : string) (default : JSON) : Res JSON :=
  match obj with
  | JObject members =>
      match lookup key members with
      | Some v => Return v
      | None => Return default
      end
  | _ => Raise (AttributeError
                  ("'" +:+ type_name obj +:+ "' object has no attribute 'get'"))
  end.

End Json.

(** [repr] of a [bytes] object, which is what an f-string prints for
    [response.content]. *)
Module Bytes.

Definition hex_digit (n : N) : ascii :=
  if (n <? 10)%N then ascii_of_N (48 + n) else ascii_of_N (87 + n).

Definition repr_byte (quote : ascii) (c : ascii) : string :=
  let n := N_of_ascii c in
  if Ascii.eqb c quote || Ascii.eqb c "\" then String "\" (String c EmptyString)
  else if (n =? 9)%N then "\t"
  else if (n =? 10)%N then "\n"
  else if (n =? 13)%N then "\r"
  else if (n <? 32)%N || (127 <=? n)%N then
    String "\" (String "x" (String (hex_digit (n / 16)) (String (hex_digit (n mod 16)) EmptyString)))
  else String c EmptyString.

Fixpoint repr_body (quote : ascii) (b : string) : string :=
  match b with
  | EmptyString => EmptyString
  | String c b' => repr_byte quote c +:+ repr_body quote b'
  end.

Definition double_quote : ascii := ascii_of_N 34.

Definition repr (b : string) : string :=
  let quote : ascii :=
    if Str.contains "'" b && negb (Str.contains double_quote b)
    then double_quote else "'"%char in
  String "b" (String quote (repr_body quote b +:+ String quote EmptyString)).

End Bytes.

Record Response : Type := {
  status_code : Z;
  content : string;          (* the body, a [bytes] object *)
  json_result : Res JSON     (* what [response.json()] does: the decoded body,
                                or the error of a body that is not JSON, a
                                [ValueError] before requests 2.27 and a
                                [RequestError JSONDecodeError] from then on *)
}.

(** An exception object: its class and its [response] attribute. *)
Record RequestException : Type := {
  exc_class : RequestExceptionClass;
  response : option Response
}.

(** [isinstance(e, (ConnectionError, Timeout))], by the class hierarchy of
    [requests.exceptions]. *)
Definition is_connection_error_or_timeout (c : RequestExceptionClass) : bool :=
  match c with
  | ConnectionError | ProxyError | SSLError | ConnectTimeout => true
  | Timeout | ReadTimeout => true
  | _ => false
  end.

(** [response.raise_for_status()]: an [HTTPError] carrying the response for a
    status in 400..599, nothing otherwise. *)
Definition raise_for_status (r : Response) : option RequestException :=
  if (400 <=? status_code r) && (status_code r <? 600)
  then Some {| exc_class := HTTPError; response := Some r |}
  else None.

Definition _retryable_error (exception : RequestException) : bool :=
  is_connection_error_or_timeout (exc_class exception)
  || match response exception with
     | Some r => 500 <=? status_code r
     | None => false
     end.

(** ** Authentication *)

(** The headers of a prepared request are a [CaseInsensitiveDict]: a
    mapping in which no two names agree up to case, read and written up to
    case. It is kept as the map from the names, spelt as last written, to
    their values; [!!] on it looks a spelling up. *)
Record PreparedRequest : Type := {
  prepared_headers : gmap string string
}.

Module Headers.

(** [headers[name] = value]: the entry whose name agrees with [name] up to
    case, if any, is replaced, and the entry is now spelt [name]. *)
Definition setitem (headers : gmap string string) (name value : string)
    : gmap string string :=
  <[name := value]>
    (filter (fun entry => Str.lower (fst entry) <> Str.lower name) headers).

(** [headers.get(name)]: the value of the entry whose name agrees with
    [name] up to case. *)
Definition getitem (headers : gmap string string) (name : string) : option string :=
  snd <$> head (map_to_list
                  (filter (fun entry => Str.lower (fst entry) = Str.lower name) headers)).

End Headers.

Module _TokenAuth.

Record t : Type := mk { token : string }.

Definition __init__ (token : string) : t := mk token.

Definition __call__ (self : t) (r : PreparedRequest) : PreparedRequest :=
  {| prepared_headers :=
       Headers.setitem (prepared_headers r) "Authorization"
         ("Bearer " +:+ token self) |}.

End _TokenAuth.

(** The [auth] argument of a request: a [_TokenAuth] object, or the pair
    [(login, password)] that [requests] turns into HTTP Basic credentials. *)
Inductive Auth : Type :=
  | TokenAuth (a : _TokenAuth.t)
  | BasicAuth (login password : option string).

Inductive RequestFunc : Type :=
  | requests_get
  | requests_post
  | requests_patch.

(** One call [request_func(url, json=, params=, auth=, headers=, timeout=)]. *)
Record Request : Type := {
  request_func : RequestFunc;
  url : string;
  json_arg : option JSON;
  params : option JSON;
  auth : Auth;
  headers : gmap string string;
  timeout : Z
}.

(** What one such call does: it returns a response, raises an instance of
    [RequestException] (with the response it carries, if any), or raises
    another exception. *)
Inductive Outcome : Type :=
  | Responds (r : Response)
  | Fails (e : RequestException)
  | Crashes (e : PyExc).

(** ** The hook's surroundings *)

Record Connection : Type := {
  host : string;
  login : option string;
  password : option string;
  extra_dejson : gmap string string
}.

Inductive LogRecord : Type :=
  | LogInfo (msg : string)
  | LogError (attempt_num : Z) (error : RequestException).

(** Everything a call leaves behind, oldest first. *)
Record World : Type := {
  sent : list Request;
  slept : list QArith_base.Q;
  logged : list LogRecord;
  databricks_conn : option Connection
}.

Definition send (w : World) (r : Request) : World :=
  {| sent := sent w ++ [r]; slept := slept w; logged := logged w;
     databricks_conn := databricks_conn w |}.

(** A completed sleep of [seconds]. *)
Definition sleep (w : World) (seconds : QArith_base.Q) : World :=
  {| sent := sent w; slept := slept w ++ [seconds]; logged := logged w;
     databricks_conn := databricks_conn w |}.

Definition nonnegative (seconds : QArith_base.Q) : bool :=
  QArith_base.Qle_bool (QArith_base.Qmake 0 1) seconds.

(** [time.sleep(seconds)]: a negative length is refused with a
    [ValueError], and no time passes. *)
Definition time_sleep (w : World) (seconds : QArith_base.Q) : Res unit * World :=
  if nonnegative seconds then (Return tt, sleep w seconds)
  else (Raise (ValueError "sleep length must be non-negative"), w).

Definition log (w : World) (r : LogRecord) : World :=
  {| sent := sent w; slept := slept w; logged := logged w ++ [r];
     databricks_conn := databricks_conn w |}.

Definition set_databricks_conn (w : World) (c : Connection) : World :=
  {| sent := sent w; slept := slept w; logged := logged w;
     databricks_conn := Some c |}.

(** The collaborators of the hook: the connection store behind
    [get_connection], the network (the outcome of the [n]-th request, counted
    from 0 over the whole history), and the Airflow version. *)
Record Env : Type := {
  get_connection : string -> Res Connection;
  transport : nat -> Request -> Outcome;
  __version__ : string
}.

Definition USER_AGENT_HEADER (env : Env) : gmap string string :=
  {[ "user-agent" := "airflow-" +:+ __version__ env ]}.

(** ** Endpoints *)

Definition RESTART_CLUSTER_ENDPOINT : string * string := ("POST", "api/2.0/clusters/restart").
Definition START_CLUSTER_ENDPOINT : string * string := ("POST", "api/2.0/clusters/start").
Definition TERMINATE_CLUSTER_ENDPOINT : string * string := ("POST", "api/2.0/clusters/delete").
Definition RUN_NOW_ENDPOINT : string * string := ("POST", "api/2.0/jobs/run-now").
Definition SUBMIT_RUN_ENDPOINT : string * string := ("POST", "api/2.0/jobs/runs/submit").
Definition GET_RUN_ENDPOINT : string * string := ("GET", "api/2.0/jobs/runs/get").
Definition CANCEL_RUN_ENDPOINT : string * string := ("POST", "api/2.0/jobs/runs/cancel").
Definition INSTALL_LIBS_ENDPOINT : string * string := ("POST", "api/2.0/libraries/install").
Definition UNINSTALL_LIBS_ENDPOINT : string * string := ("POST", "api/2.0/libraries/uninstall").

(** ** Run states as the API delivers them

    [get_run_state] passes to the [RunState] constructor whatever values the
    response holds. [RawRunState] is such a run state with its three
    attributes as decoded ([JNull] is [None]); [typed] reads it as a
    [RunState.t] when the attributes have the types the constructor is
    annotated with. *)
Record RawRunState : Type := {
  raw_life_cycle_state : JSON;
  raw_result_state : JSON;
  raw_state_message : JSON
}.

Definition typed (raw : RawRunState) : option RunState.t :=
  match raw_life_cycle_state raw, raw_result_state raw, raw_state_message raw with
  | JString l, JString r, JString m => Some (RunState.mk l (Some r) m)
  | JString l, JNull, JString m => Some (RunState.mk l None m)
  | _, _, _ => None
  end.

(** ** The hook *)

Module DatabricksHook.

Record t : Type := mk {
  databricks_conn_id : string;
  timeout_seconds : Z;
  retry_limit : Z;
  retry_delay : QArith_base.Q
}.

Definition default_conn_name : string := "databricks_default".

Definition __init__ (databricks_conn_id : string) (timeout_seconds : Z)
    (retry_limit : Z) (retry_delay : QArith_base.Q) : Res t :=
  if retry_limit <? 1 then
    Raise (ValueError "Retry limit must be greater than equal to 1")
  else
    Return (mk databricks_conn_id timeout_seconds retry_limit retry_delay).

Definition _parse_host (host : string) : Res string :=
  urlparse_host ← Urllib.urlparse_hostname host;
  match urlparse_host with
  | Some h => if Str.is_empty h then Return host else Return h
  | None => Return host
  end.

(** The outcome of the [try] block of one attempt. *)
Inductive Attempt : Type :=
  | Returned (body : JSON)
  | Caught (e : RequestException)
  | Uncaught (e : PyExc).

(** Whether [except requests_exceptions.RequestException] catches [e]. *)
Definition raised (e : PyExc) : Attempt :=
  match e with
  | RequestError cls => Caught {| exc_class := cls; response := None |}
  | _ => Uncaught e
  end.

Definition attempt (o : Outcome) : Attempt :=
  match o with
  | Fails e => Caught e
  | Crashes e => raised e
  | Responds r =>
      match raise_for_status r with
      | Some e => Caught e
      | None =>
          match json_result r with
          | Return body => Returned body
          | Raise e => raised e
          end
      end
  end.

(** Evaluating
    [f'Response: {e.response.content}, Status Code: {e.response.status_code}'];
    on an exception without a response the attribute access fails. *)
Definition fatal_message (e : RequestException) : Res string :=
  match response e with
  | Some r =>
      Return ("Response: " +:+ Bytes.repr (content r) +:+
              ", Status Code: " +:+ pretty (status_code r))
  | None => Raise (AttributeError "'NoneType' object has no attribute 'content'")
  end.

Definition giving_up_message (self : t) : string :=
  "API requests to Databricks failed " +:+ pretty (retry_limit self) +:+
  " times. Giving up.".

(** The [while True] loop. [fuel] bounds the number of iterations the model
    runs; [None] means the bound was reached with the loop still going. *)
Fixpoint retry_loop (env : Env) (self : t) (req : Request) (fuel : nat)
    (attempt_num : Z) (w : World) : option (Res JSON * World) :=
  match fuel with
  | O => None
  | S fuel' =>
      let outcome := transport env (length (sent w)) req in
      let w := send w req in
      match attempt outcome with
      | Returned body => Some (Return body, w)
      | Uncaught e => Some (Raise e, w)
      | Caught e =>
          if negb (_retryable_error e) then
            match fatal_message e with
            | Return msg => Some (Raise (AirflowException msg), w)
            | Raise err => Some (Raise err, w)
            end
          else
            let w := log w (LogError attempt_num e) in
            if attempt_num =? retry_limit self then
              Some (Raise (AirflowException (giving_up_message self)), w)
            else
              match time_sleep w (retry_delay self) with
              | (Return _, w) => retry_loop env self req fuel' (attempt_num + 1) w
              | (Raise err, w) => Some (Raise err, w)
              end
      end
  end.

(** The part of [_do_api_call] before the loop: the connection, the
    authentication, the URL and the request function. *)
Definition prepare (env : Env) (self : t) (endpoint_info : string * string)
    (json : JSON) (w : World) : Res Request * World :=
  let '(method, endpoint) := endpoint_info in
  match get_connection env (databricks_conn_id self) with
  | Raise e => (Raise e, w)
  | Return conn =>
      let w := set_databricks_conn w conn in
      let '(auth_host, w) :=
        match extra_dejson conn !! "token" with
        | Some token =>
            (match extra_dejson conn !! "host" with
             | Some extra_host =>
                 h ← _parse_host extra_host;
                 mret (TokenAuth (_TokenAuth.__init__ token), h)
             | None => Return (TokenAuth (_TokenAuth.__init__ token), host conn)
             end,
             log w (LogInfo "Using token auth. "))
        | None =>
            (Return (BasicAuth (login conn) (password conn), host conn),
             log w (LogInfo "Using basic auth. "))
        end in
      (auth_host ← auth_host;
       parsed ← _parse_host (snd auth_host);
       func ← (if String.eqb method "GET" then Return requests_get
               else if String.eqb method "POST" then Return requests_post
               else if String.eqb method "PATCH" then Return requests_patch
               else Raise (AirflowException ("Unexpected HTTP Method: " +:+ method)));
       mret {| request_func := func;
               url := "https://" +:+ parsed +:+ "/" +:+ endpoint;
               json_arg := if String.eqb method "POST" || String.eqb method "PATCH"
                           then Some json else None;
               params := if String.eqb method "GET" then Some json else None;
               auth := fst auth_host;
               headers := USER_AGENT_HEADER env;
               timeout := timeout_seconds self |},
       w)
  end.

Definition _do_api_call (env : Env) (self : t) (endpoint_info : string * string)
    (json : JSON) (fuel : nat) (w : World) : option (Res JSON * World) :=
  match prepare env self endpoint_info json w with
  | (Raise e, w) => Some (Raise e, w)
  | (Return req, w) => retry_loop env self req fuel 1 w
  end.

(** What a method does with the decoded response of [_do_api_call]; the
    errors of the call pass through. *)
Definition and_then {A B : Type} (call : option (Res A * World)) (k : A -> Res B)
    : option (Res B * World) :=
  match call with
  | None => None
  | Some (Raise e, w) => Some (Raise e, w)
  | Some (Return a, w) => Some (k a, w)
  end.

Definition run_now (env : Env) (self : t) (json : JSON) (fuel : nat) (w : World)
    : option (Res JSON * World) :=
  and_then (_do_api_call env self RUN_NOW_ENDPOINT json fuel w)
    (fun response => Json.getitem response "run_id").

Definition submit_run (env : Env) (self : t) (json : JSON) (fuel : nat) (w : World)
    : option (Res JSON * World) :=
  and_then (_do_api_call env self SUBMIT_RUN_ENDPOINT json fuel w)
    (fun response => Json.getitem response "run_id").

Definition get_run_page_url (env : Env) (self : t) (run_id : string) (fuel : nat)
    (w : World) : option (Res JSON * World) :=
  let json := JObject [("run_id", JString run_id)] in
  and_then (_do_api_call env self GET_RUN_ENDPOINT json fuel w)
    (fun response => Json.getitem response "run_page_url").

Definition get_job_id (env : Env) (self : t) (run_id : string) (fuel : nat)
    (w : World) : option (Res JSON * World) :=
  let json := JObject [("run_id", JString run_id)] in
  and_then (_do_api_call env self GET_RUN_ENDPOINT json fuel w)
    (fun response => Json.getitem response "job_id").

Definition get_run_state (env : Env) (self : t) (run_id : string) (fuel : nat)
    (w : World) : option (Res RawRunState * World) :=
  let json := JObject [("run_id", JString run_id)] in
  and_then (_do_api_call env self GET_RUN_ENDPOINT json fuel w)
    (fun response =>
       state ← Json.getitem response "state";
       life_cycle_state ← Json.getitem state "life_cycle_state";
       (* result_state may not be in the state if not terminal *)
       result_state ← Json.get state "result_state" JNull;
       state_message ← Json.getitem state "state_message";
       mret {| raw_life_cycle_state := life_cycle_state;
               raw_result_state := result_state;
               raw_state_message := state_message |}).

Definition cancel_run (env : Env) (self : t) (run_id : string) (fuel : nat)
    (w : World) : option (Res unit * World) :=
  let json := JObject [("run_id", JString run_id)] in
  and_then (_do_api_call env self CANCEL_RUN_ENDPOINT json fuel w)
    (fun _ => Return tt).

Definition restart_cluster (env : Env) (self : t) (json : JSON) (fuel : nat)
    (w : World) : option (Res unit * World) :=
  and_then (_do_api_call env self RESTART_CLUSTER_ENDPOINT json fuel w)
    (fun _ => Return tt).

Definition start_cluster (env : Env) (self : t) (json : JSON) (fuel : nat)
    (w : World) : option (Res unit * World) :=
  and_then (_do_api_call env self START_CLUSTER_ENDPOINT json fuel w)
    (fun _ => Return tt).

Definition terminate_cluster (env : Env) (self : t) (json : JSON) (fuel : nat)
    (w : World) : option (Res unit * World) :=
  and_then (_do_api_call env self TERMINATE_CLUSTER_ENDPOINT json fuel w)
    (fun _ => Return tt).

Definition install (env : Env) (self : t) (json : JSON) (fuel : nat)
    (w : World) : option (Res unit * World) :=
  and_then (_do_api_call env self INSTALL_LIBS_ENDPOINT json fuel w)
    (fun _ => Return tt).

Definition uninstall (env : Env) (self : t) (json : JSON) (fuel : nat)
    (w : World) : option (Res unit * World) :=
  and_then (_do_api_call env self UNINSTALL_LIBS_ENDPOINT json fuel w)
    (fun _ => Return tt).

End DatabricksHook.

(** ** Sample collaborators

    Connections, responses and scripted networks in the style of the mocks
    the hook is tested with; the statements below are instantiated on them. *)

Module Sample.

Definition token_connection : Connection :=
  {| host := "xx.cloud.databricks.com"; login := None; password := None;
     extra_dejson := {[ "token" := "dapi-0123" ]} |}.

Definition basic_connection : Connection :=
  {| host := "https://xx.cloud.databricks.com"; login := Some "user";
     password := Some "secret"; extra_dejson := ∅ |}.

Definition server_error : Response :=
  {| status_code := 500; content := "Internal Server Error";
     json_result := Raise (ValueError "Expecting value") |}.

Definition not_found : Response :=
  {| status_code := 404; content := "Not Found";
     json_result := Raise (ValueError "Expecting value") |}.

Definition run_id_body : JSON := JObject [("run_id", JNumber 1)].

Definition ok : Response :=
  {| status_code := 200; content := "{'run_id': 1}";
     json_result := Return run_id_body |}.

(** A network that answers the [i]-th request with the [i]-th entry of a
    script, and with [default] once the script is used up. *)
Definition scripted (script : list Outcome) (default : Outcome)
    : nat -> Request -> Outcome :=
  fun i _ => nth i script default.

Definition env (conn : Connection) (net : nat -> Request -> Outcome) : Env :=
  {| get_connection := fun _ => Return conn; transport := net;
     __version__ := "2.0.0" |}.

Definition hook (retry_limit : Z) : DatabricksHook.t :=
  DatabricksHook.mk DatabricksHook.default_conn_name 180 retry_limit
    (QArith_base.Qmake 1 1).

Definition fresh : World :=
  {| sent := []; slept := []; logged := []; databricks_conn := None |}.

Definition payload : JSON := JObject [("run_id", JNumber 1)].

(** A token connection whose extra fields override the host. *)
Definition override_connection : Connection :=
  {| host := "ignored.example.com"; login := None; password := None;
     extra_dejson := {[ "token" := "dapi-0123";
                        "host" := "https://Override.cloud.databricks.com/login" ]} |}.

(** The request a GET of the run state sends for [override_connection]. *)
Definition override_request : Request :=
  {| request_func := requests_get;
     url := "https://override.cloud.databricks.com/api/2.0/jobs/runs/get";
     json_arg := None;
     params := Some payload;
     auth := TokenAuth (_TokenAuth.mk "dapi-0123");
     headers := {[ "user-agent" := "airflow-2.0.0" ]};
     timeout := 180 |}.

(** The requests [get_run_state] and [cancel_run] send for run [1] under
    [token_connection]. *)
Definition get_run_request : Request :=
  {| request_func := requests_get;
     url := "https://xx.cloud.databricks.com/api/2.0/jobs/runs/get";
     json_arg := None;
     params := Some (JObject [("run_id", JString "1")]);
     auth := TokenAuth (_TokenAuth.mk "dapi-0123");
     headers := {[ "user-agent" := "airflow-2.0.0" ]};
     timeout := 180 |}.

Definition cancel_run_request : Request :=
  {| request_func := requests_post;
     url := "https://xx.cloud.databricks.com/api/2.0/jobs/runs/cancel";
     json_arg := Some (JObject [("run_id", JString "1")]);
     params := None;
     auth := TokenAuth (_TokenAuth.mk "dapi-0123");
     headers := {[ "user-agent" := "airflow-2.0.0" ]};
     timeout := 180 |}.

Definition connect_timeout : RequestException :=
  {| exc_class := ConnectTimeout; response := None |}.

Definition forbidden : Response :=
  {| status_code := 403; content := "Invalid access token";
     json_result := Raise (ValueError "Expecting value") |}.

(** A redirect answered with an empty JSON object. *)
Definition found : Response :=
  {| status_code := 302; content := "{}"; json_result := Return (JObject []) |}.

Definition run_state_body (state : list (string * JSON)) : JSON :=
  JObject [("job_id", JNumber 7); ("state", JObject state)].

Definition responding (body : JSON) : Response :=
  {| status_code := 200; content := "{...}"; json_result := Return body |}.

(** The request every attempt of a call to [endpoint_info] sends. *)
Definition request (conn : Connection) (func : RequestFunc) (endpoint : string)
    (a : Auth) : Request :=
  {| request_func := func;
     url := "https://xx.cloud.databricks.com/" +:+ endpoint;
     json_arg := match func with requests_get => None | _ => Some payload end;
     params := match func with requests_get => Some payload | _ => None end;
     auth := a;
     headers := {[ "user-agent" := "airflow-2.0.0" ]};
     timeout := 180 |}.

End Sample.

(** ** Vocabulary of the statements *)

(** A character that is not [/]; a text is slash-free when all its
    characters are. *)
Definition not_slash (c : ascii) : bool := negb (Ascii.eqb c "/").

Definition slash_free (s : string) : Prop := Str.all not_slash s = true.

(** A character that none of the splits of [urlparse] reacts to: not one of
    [/?#] (end of the network location), [@] (user info), [[]] (IPv6
    literal), [:] (port) or [%] (IPv6 zone). *)
Definition plain_host_char (c : ascii) : bool :=
  negb (Urllib.is_netloc_delim c)
  && negb (Ascii.eqb c "@") && negb (Ascii.eqb c "[") && negb (Ascii.eqb c "]")
  && negb (Ascii.eqb c ":") && negb (Ascii.eqb c "%").

(** The characters of a host name: letters, digits, [-] and [.]. *)
Definition host_name_char (c : ascii) : bool :=
  Urllib.is_letter c || Urllib.is_digit c || Ascii.eqb c "-" || Ascii.eqb c ".".

(** [other] is absent from [s]. *)
Definition without (other : ascii) (s : string) : Prop :=
  Str.all (fun c => negb (Ascii.eqb c other)) s = true.

(** The host a call puts in its URL, read off the connection: the [host] key
    of the extra fields under token authentication when there is one, the
    [host] field otherwise, normalised once. *)
Definition url_host (conn : Connection) : Res string :=
  match extra_dejson conn !! "token", extra_dejson conn !! "host" with
  | Some _, Some extra_host => DatabricksHook._parse_host extra_host
  | _, _ => DatabricksHook._parse_host (host conn)
  end.

(** The three methods [_do_api_call] dispatches on. *)
Definition request_func_of (method : string) : option RequestFunc :=
  if String.eqb method "GET" then Some requests_get
  else if String.eqb method "POST" then Some requests_post
  else if String.eqb method "PATCH" then Some requests_patch
  else None.

(** The world once the connection is resolved and the authentication
    chosen, which is all a call does before it builds its request. *)
Definition resolved (w : World) (conn : Connection) : World :=
  log (set_databricks_conn w conn)
    (LogInfo (match extra_dejson conn !! "token" with
              | Some _ => "Using token auth. "
              | None => "Using basic auth. "
              end)).

(** Every attempt from the [i]-th request on fails with a retryable error. *)
Definition always_failing (env : Env) (req : Request) (i : nat) : Prop :=
  forall j : nat, (i <= j)%nat ->
    exists e, DatabricksHook.attempt (transport env j req) = DatabricksHook.Caught e /\
              _retryable_error e = true.

(** * Properties *)

(** ** Run states *)

Lemma str_in_In (x : string) (xs : list string) :
  str_in x xs = true <-> In x xs.
Proof.
  unfold str_in. rewrite existsb_exists. split.
  - intros (y & Hy & Heq). apply String.eqb_eq in Heq. now subst.
  - intros Hin. exists x. split; [assumption | apply String.eqb_refl].
Qed.

Lemma str_in_not_In (x : string) (xs : list string) :
  str_in x xs = false <-> ~ In x xs.
Proof.
  rewrite <- str_in_In. destruct (str_in x xs); split; congruence.
Qed.

Lemma opt_str_eqb_eq (a b : option string) :
  opt_str_eqb a b = true <-> a = b.
Proof.
  destruct a as [x|], b as [y|]; simpl; try easy.
  rewrite String.eqb_eq. split; [intros ->; reflexivity | now intros [= ->]].
Qed.

Lemma terminal_states_recognised (s : string) :
  In s ["TERMINATED"; "SKIPPED"; "INTERNAL_ERROR"] -> In s RUN_LIFE_CYCLE_STATES.
Proof.
  unfold RUN_LIFE_CYCLE_STATES. simpl. intuition.
Qed.

(** C5. On a run state whose [life_cycle_state] is one of the six recognised
    values, [is_terminal] returns a boolean that is true exactly for
    TERMINATED, SKIPPED and INTERNAL_ERROR; on any other [life_cycle_state]
    it raises an [AirflowException] and returns nothing. *)
Theorem is_terminal_spec (rs : RunState.t) :
  (In (RunState.life_cycle_state rs) RUN_LIFE_CYCLE_STATES ->
   exists b : bool,
     RunState.is_terminal rs = Return b /\
     (b = true <->
      In (RunState.life_cycle_state rs) ["TERMINATED"; "SKIPPED"; "INTERNAL_ERROR"]))
  /\
  (~ In (RunState.life_cycle_state rs) RUN_LIFE_CYCLE_STATES ->
   exists msg : string, RunState.is_terminal rs = Raise (AirflowException msg)).
Proof.
  unfold RunState.is_terminal. split.
  - intros Hin. apply str_in_In in Hin. rewrite Hin. simpl negb. cbv iota.
    eexists. split; [reflexivity | apply str_in_In].
  - intros Hnot. apply str_in_not_In in Hnot. rewrite Hnot. simpl negb. cbv iota.
    eexists. reflexivity.
Qed.

Lemma is_terminal_spec_witness :
  (exists b : bool,
     RunState.is_terminal (RunState.mk "SKIPPED" None "skipped") = Return b /\
     (b = true <-> In "SKIPPED" ["TERMINATED"; "SKIPPED"; "INTERNAL_ERROR"]))
  /\
  (exists msg : string,
     RunState.is_terminal (RunState.mk "QUEUED" None "waiting")
     = Raise (AirflowException msg)).
Proof.
  split.
  - apply (proj1 (is_terminal_spec (RunState.mk "SKIPPED" None "skipped"))).
    simpl. auto 10.
  - apply (proj2 (is_terminal_spec (RunState.mk "QUEUED" None "waiting"))).
    simpl. intuition discriminate.
Defined.

(** C9. [is_successful] always returns a boolean, which is true exactly when
    [result_state] is the string SUCCESS; an absent [result_state] gives
    false. *)
Theorem is_successful_spec (rs : RunState.t) :
  exists b : bool,
    RunState.is_successful rs = Return b /\
    (b = true <-> RunState.result_state rs = Some "SUCCESS") /\
    (RunState.result_state rs = None -> b = false).
Proof.
  unfold RunState.is_successful. eexists. split; [reflexivity | split].
  - apply opt_str_eqb_eq.
  - intros ->. reflexivity.
Qed.

Lemma is_successful_spec_witness :
  exists b : bool,
    RunState.is_successful (RunState.mk "RUNNING" None "in progress") = Return b /\
    b = false.
Proof.
  destruct (is_successful_spec (RunState.mk "RUNNING" None "in progress"))
    as (b & Hb & _ & Hnone).
  exists b. split; [exact Hb | apply Hnone; reflexivity].
Defined.

Lemma run_state_eqb_eq (a b : RunState.t) :
  String.eqb (RunState.life_cycle_state a) (RunState.life_cycle_state b)
  && opt_str_eqb (RunState.result_state a) (RunState.result_state b)
  && String.eqb (RunState.state_message a) (RunState.state_message b) = true
  <-> a = b.
Proof.
  destruct a as [l r m], b as [l' r' m']. simpl.
  rewrite !andb_true_iff, !String.eqb_eq, opt_str_eqb_eq.
  split; [intros [[-> ->] ->]; reflexivity | intros [= -> -> ->]; auto].
Qed.

(** C10. The constructor accepts every triple of field values and stores it
    unchanged; on the resulting run state [is_successful] returns, and
    comparing it with any other run state returns a boolean (true exactly
    when the three fields agree). Only [is_terminal] raises, and it does so
    exactly when [life_cycle_state] is not a recognised value. *)
Theorem run_state_no_validation (l : string) (r : option string) (m : string) :
  exists rs : RunState.t,
    RunState.__init__ l r m = Return rs /\
    RunState.life_cycle_state rs = l /\
    RunState.result_state rs = r /\
    RunState.state_message rs = m /\
    ~ raises (RunState.is_successful rs) /\
    (forall (l' : string) (r' : option string) (m' : string),
       exists (rs' : RunState.t) (b : bool),
         RunState.__init__ l' r' m' = Return rs' /\
         RunState.__eq__ rs (RunState.IsRunState rs') = Return (RunState.Bool b) /\
         (b = true <-> rs = rs')) /\
    (raises (RunState.is_terminal rs) <-> ~ In l RUN_LIFE_CYCLE_STATES).
Proof.
  exists (RunState.mk l r m).
  split; [reflexivity|]. do 3 (split; [reflexivity|]).
  split; [simpl; tauto|]. split.
  - intros l' r' m'. exists (RunState.mk l' r' m'). eexists.
    split; [reflexivity|]. split; [reflexivity|]. apply run_state_eqb_eq.
  - unfold RunState.is_terminal. simpl RunState.life_cycle_state.
    rewrite <- str_in_not_In.
    destruct (str_in l RUN_LIFE_CYCLE_STATES); simpl; split; intros H;
      solve [exact I | reflexivity | contradiction | discriminate].
Qed.

(** ** Construction of the hook *)

(** C6. Constructing a hook with [retry_limit < 1] raises a [ValueError]
    and yields no hook; with [retry_limit >= 1] it yields a hook holding the
    four arguments. *)
Theorem init_retry_limit (conn_id : string) (timeout_seconds retry_limit : Z)
    (retry_delay : QArith_base.Q) :
  (retry_limit < 1 ->
   DatabricksHook.__init__ conn_id timeout_seconds retry_limit retry_delay
   = Raise (ValueError "Retry limit must be greater than equal to 1"))
  /\
  (1 <= retry_limit ->
   DatabricksHook.__init__ conn_id timeout_seconds retry_limit retry_delay
   = Return (DatabricksHook.mk conn_id timeout_seconds retry_limit retry_delay)).
Proof.
  unfold DatabricksHook.__init__. split; intros H.
  - apply Z.ltb_lt in H. now rewrite H.
  - apply Z.ltb_ge in H. now rewrite H.
Qed.

Lemma init_retry_limit_witness :
  DatabricksHook.__init__ DatabricksHook.default_conn_name 180 0 (QArith_base.Qmake 1 1)
  = Raise (ValueError "Retry limit must be greater than equal to 1")
  /\
  DatabricksHook.__init__ DatabricksHook.default_conn_name 180 3 (QArith_base.Qmake 1 1)
  = Return (DatabricksHook.mk DatabricksHook.default_conn_name 180 3 (QArith_base.Qmake 1 1)).
Proof.
  split.
  - apply (proj1 (init_retry_limit DatabricksHook.default_conn_name 180 0
                    (QArith_base.Qmake 1 1))). lia.
  - apply (proj2 (init_retry_limit DatabricksHook.default_conn_name 180 3
                    (QArith_base.Qmake 1 1))). lia.
Defined.

(** ** Host normalisation *)

Section SlashFree.

Lemma all_app (P : ascii -> bool) (a b : string) :
  Str.all P a = true -> Str.all P b = true -> Str.all P (a +:+ b) = true.
Proof.
  intros Ha Hb. induction a as [|c a IH]; simpl in *; [exact Hb|].
  apply andb_true_iff in Ha as [Hc Ha]. rewrite Hc. simpl. auto.
Qed.

Lemma all_weaken (P Q : ascii -> bool) (s : string) :
  (forall c, P c = true -> Q c = true) ->
  Str.all P s = true -> Str.all Q s = true.
Proof.
  intros HPQ. induction s as [|c s IH]; simpl; [reflexivity|].
  rewrite !andb_true_iff. intros [Hc Hs]. auto.
Qed.

Lemma all_partition (P : ascii -> bool) (sep : ascii) (s : string) :
  Str.all P s = true ->
  Str.all P (fst (fst (Str.partition sep s))) = true /\
  Str.all P (snd (Str.partition sep s)) = true.
Proof.
  induction s as [|c s IH]; simpl; [auto|].
  rewrite andb_true_iff. intros [Hc Hs].
  destruct (Ascii.eqb c sep); simpl; [auto|].
  destruct (Str.partition sep s) as [[h found] t]. simpl in *.
  destruct (IH Hs) as [Hh Ht]. rewrite Hc, Hh. auto.
Qed.

Lemma all_rpartition (P : ascii -> bool) (sep : ascii) (s : string) :
  Str.all P s = true ->
  Str.all P (snd (Str.rpartition sep s)) = true.
Proof.
  induction s as [|c s IH]; simpl; [auto|].
  rewrite andb_true_iff. intros [Hc Hs]. specialize (IH Hs).
  destruct (Str.rpartition sep s) as [[h found] t]. simpl in *.
  destruct found; simpl; [exact IH|].
  destruct (Ascii.eqb c sep); simpl; [exact Hs|].
  rewrite Hc. exact IH.
Qed.

Lemma lower_char_not_slash (c : ascii) :
  not_slash c = true -> not_slash (Str.lower_char c) = true.
Proof.
  destruct c as [[] [] [] [] [] [] [] []]; vm_compute; congruence.
Qed.

Lemma lower_slash_free (s : string) :
  slash_free s -> slash_free (Str.lower s).
Proof.
  unfold slash_free. induction s as [|c s IH]; simpl; [reflexivity|].
  rewrite !andb_true_iff. intros [Hc Hs].
  split; [apply lower_char_not_slash, Hc | apply IH, Hs].
Qed.

Lemma splitnetloc_no_delim (u : string) :
  Str.all (fun c => negb (Urllib.is_netloc_delim c)) (fst (Urllib._splitnetloc u)) = true.
Proof.
  induction u as [|c u IH]; simpl; [reflexivity|].
  destruct (Urllib.is_netloc_delim c) eqn:E; simpl; [reflexivity|].
  destruct (Urllib._splitnetloc u) as [domain rest]. simpl in *.
  rewrite E. simpl. exact IH.
Qed.

Lemma splitnetloc_slash_free (u : string) :
  slash_free (fst (Urllib._splitnetloc u)).
Proof.
  eapply all_weaken; [|apply splitnetloc_no_delim].
  intros c. unfold Urllib.is_netloc_delim, not_slash.
  destruct (Ascii.eqb c "/"); simpl; congruence.
Qed.

(** Whatever network location [urlsplit] finds, it holds no slash. *)
Lemma netloc_of_slash_free (u netloc : string) :
  Urllib.netloc_of u = Return netloc -> slash_free netloc.
Proof.
  unfold Urllib.netloc_of. intros H.
  assert (Hempty : slash_free EmptyString) by reflexivity.
  destruct u as [|c u]; [injection H as <-; exact Hempty|].
  destruct (Ascii.eqb_spec c "/") as [->|Hc].
  - destruct u as [|d u]; [injection H as <-; exact Hempty|].
    destruct (Ascii.eqb_spec d "/") as [->|Hd].
    + destruct (_ || _) in H; [discriminate|].
      injection H as <-. apply splitnetloc_slash_free.
    + destruct d as [[] [] [] [] [] [] [] []];
        solve [contradiction Hd; reflexivity | injection H as <-; exact Hempty].
  - destruct c as [[] [] [] [] [] [] [] []];
      solve [contradiction Hc; reflexivity | injection H as <-; exact Hempty].
Qed.

Lemma urlsplit_netloc_slash_free (url netloc : string) :
  Urllib.urlsplit_netloc url = Return netloc -> slash_free netloc.
Proof.
  unfold Urllib.urlsplit_netloc.
  destruct (Str.partition ":" url) as [[head found] rest].
  repeat match goal with
         | |- context [if ?b then _ else _] => destruct b
         end; apply netloc_of_slash_free.
Qed.

(** A text without a slash has no network location. *)
Lemma netloc_of_no_slash (u : string) :
  slash_free u -> Urllib.netloc_of u = Return EmptyString.
Proof.
  unfold slash_free. destruct u as [|c u]; [reflexivity|].
  simpl. rewrite andb_true_iff. intros [Hc _].
  destruct c as [[] [] [] [] [] [] [] []]; try reflexivity.
  discriminate Hc.
Qed.

Lemma urlsplit_netloc_no_slash (url : string) :
  slash_free url -> Urllib.urlsplit_netloc url = Return EmptyString.
Proof.
  intros Hurl. unfold Urllib.urlsplit_netloc.
  pose proof (all_partition not_slash ":" url Hurl) as [_ Hrest].
  destruct (Str.partition ":" url) as [[head found] rest]. simpl in Hrest.
  repeat match goal with
         | |- context [if ?b then _ else _] => destruct b
         end; now apply netloc_of_no_slash.
Qed.

Lemma hostinfo_slash_free (netloc : string) :
  slash_free netloc -> slash_free (Urllib._hostinfo_hostname netloc).
Proof.
  unfold slash_free, Urllib._hostinfo_hostname. intros H.
  pose proof (all_rpartition not_slash "@" netloc H) as Hinfo.
  destruct (Str.rpartition "@" netloc) as [[? ?] hostinfo]. simpl in Hinfo.
  pose proof (all_partition not_slash "[" hostinfo Hinfo) as [_ Hbr].
  pose proof (all_partition not_slash ":" hostinfo Hinfo) as [Hhost _].
  destruct (Str.partition "[" hostinfo) as [[? have_open_br] bracketed].
  simpl in Hbr. destruct have_open_br.
  - pose proof (all_partition not_slash "]" bracketed Hbr) as [Hhost' _].
    destruct (Str.partition "]" bracketed) as [[hostname ?] ?]. exact Hhost'.
  - destruct (Str.partition ":" hostinfo) as [[hostname ?] ?]. exact Hhost.
Qed.

Lemma hostname_of_netloc_slash_free (netloc h : string) :
  slash_free netloc ->
  Urllib.hostname_of_netloc netloc = Some h -> slash_free h.
Proof.
  intros Hnet. unfold Urllib.hostname_of_netloc.
  pose proof (hostinfo_slash_free netloc Hnet) as Hhost.
  destruct (Str.is_empty _); [discriminate|].
  pose proof (all_partition not_slash "%" _ Hhost) as [Hname Hzone].
  destruct (Str.partition "%" _) as [[hostname percent] zone].
  simpl in Hname, Hzone. intros [= <-].
  apply all_app; [apply lower_slash_free, Hname|].
  apply all_app; [destruct percent; reflexivity | exact Hzone].
Qed.

(** The two facts idempotence rests on: a hostname never holds a slash,
    and a text without a slash has no hostname. *)
Lemma urlparse_hostname_slash_free (url h : string) :
  Urllib.urlparse_hostname url = Return (Some h) -> slash_free h.
Proof.
  unfold Urllib.urlparse_hostname.
  destruct (Urllib.urlsplit_netloc url) as [netloc|e] eqn:E; [|discriminate].
  intros [= H]. eapply hostname_of_netloc_slash_free; [|exact H].
  eapply urlsplit_netloc_slash_free, E.
Qed.

Lemma urlparse_hostname_no_slash (url : string) :
  slash_free url -> Urllib.urlparse_hostname url = Return None.
Proof.
  intros H. unfold Urllib.urlparse_hostname.
  now rewrite (urlsplit_netloc_no_slash url H).
Qed.

Lemma parse_host_fixed (h h' : string) :
  DatabricksHook._parse_host h = Return h' ->
  DatabricksHook._parse_host h' = Return h'.
Proof.
  intros H. pose proof H as H0. unfold DatabricksHook._parse_host in H.
  destruct (Urllib.urlparse_hostname h) as [[x|]|e] eqn:E;
    simpl in H; try discriminate.
  - destruct (Str.is_empty x); injection H as <-; [exact H0|].
    unfold DatabricksHook._parse_host.
    now rewrite (urlparse_hostname_no_slash x (urlparse_hostname_slash_free h x E)).
  - injection H as <-. exact H0.
Qed.

End SlashFree.

Lemma hostname_of_netloc_nonempty (netloc h : string) :
  Urllib.hostname_of_netloc netloc = Some h -> Str.is_empty h = false.
Proof.
  unfold Urllib.hostname_of_netloc.
  destruct (Urllib._hostinfo_hostname netloc) as [|c s]; [discriminate|].
  simpl. destruct (Ascii.eqb c "%").
  - intros [= <-]. reflexivity.
  - destruct (Str.partition "%" s) as [[hostname percent] zone].
    intros [= <-]. reflexivity.
Qed.

Lemma urlparse_hostname_nonempty (url h : string) :
  Urllib.urlparse_hostname url = Return (Some h) -> Str.is_empty h = false.
Proof.
  unfold Urllib.urlparse_hostname.
  destruct (Urllib.urlsplit_netloc url) as [netloc|e]; [|discriminate].
  intros [= H]. eapply hostname_of_netloc_nonempty, H.
Qed.

Lemma splitnetloc_host (h rest : string) :
  Str.all (fun c => negb (Urllib.is_netloc_delim c)) h = true ->
  rest = EmptyString \/
    (exists c rest', rest = String c rest' /\ Urllib.is_netloc_delim c = true) ->
  Urllib._splitnetloc (h +:+ rest) = (h, rest).
Proof.
  intros Hh Hrest. induction h as [|c h IH]; simpl in *.
  - destruct Hrest as [-> | (c & rest' & -> & Hc)]; simpl; [reflexivity|].
    now rewrite Hc.
  - apply andb_true_iff in Hh as [Hc Hh]. apply negb_true_iff in Hc.
    now rewrite Hc, (IH Hh).
Qed.

Lemma urlsplit_netloc_https (s : string) :
  Urllib.urlsplit_netloc ("https://" +:+ s)
  = Urllib.netloc_of (String "/" (String "/" s)).
Proof. reflexivity. Qed.

(** A network location in which exactly one of the two square brackets
    occurs is refused. *)
Lemma netloc_of_unmatched_bracket (netloc rest : string) :
  Str.all (fun c => negb (Urllib.is_netloc_delim c)) netloc = true ->
  rest = EmptyString \/
    (exists c rest', rest = String c rest' /\ Urllib.is_netloc_delim c = true) ->
  Str.contains "[" netloc = negb (Str.contains "]" netloc) ->
  Urllib.netloc_of (String "/" (String "/" (netloc +:+ rest)))
  = Raise (ValueError "Invalid IPv6 URL").
Proof.
  intros Hnet Hrest Hbr. unfold Urllib.netloc_of.
  rewrite (splitnetloc_host netloc rest Hnet Hrest). simpl fst. rewrite Hbr.
  now destruct (Str.contains "]" netloc).
Qed.

(** C8, counterexample. A host whose network location opens a square bracket
    and never closes it is neither reduced to a hostname nor returned
    verbatim: [urlparse] rejects it and the [ValueError] leaves
    [_parse_host]. *)
Lemma parse_host_unbalanced_bracket :
  ~ ((exists x, Urllib.urlparse_hostname "https://[oops" = Return (Some x) /\
                DatabricksHook._parse_host "https://[oops" = Return x)
     \/ DatabricksHook._parse_host "https://[oops" = Return "https://[oops").
Proof.
  assert (H : DatabricksHook._parse_host "https://[oops"
              = Raise (ValueError "Invalid IPv6 URL")) by reflexivity.
  rewrite H. intros [(x & _ & Hx) | Hx]; discriminate Hx.
Qed.

(** C8, amended. [_parse_host] returns the hostname [urlparse] finds when it
    finds one, returns its input verbatim when [urlparse] finds none, and
    raises what [urlparse] raises when [urlparse] rejects its input, as it
    does with a [ValueError] for an [https://] URL whose network location
    holds only one of the two square brackets. It maps [https://xx.cloud.databricks.com] and
    [xx.cloud.databricks.com] to [xx.cloud.databricks.com]. It is
    idempotent: a value it returns is returned unchanged when parsed again,
    and on every input parsing twice behaves as parsing once. *)
Theorem parse_host_spec :
  (forall h x : string,
     Urllib.urlparse_hostname h = Return (Some x) ->
     DatabricksHook._parse_host h = Return x)
  /\ (forall h : string,
        Urllib.urlparse_hostname h = Return None ->
        DatabricksHook._parse_host h = Return h)
  /\ (forall (h : string) (e : PyExc),
        DatabricksHook._parse_host h = Raise e <->
        Urllib.urlparse_hostname h = Raise e)
  /\ (forall netloc rest : string,
        Str.all (fun c => negb (Urllib.is_netloc_delim c)) netloc = true ->
        rest = EmptyString \/
          (exists c rest', rest = String c rest' /\ Urllib.is_netloc_delim c = true) ->
        Str.contains "[" netloc = negb (Str.contains "]" netloc) ->
        DatabricksHook._parse_host ("https://" +:+ netloc +:+ rest)
        = Raise (ValueError "Invalid IPv6 URL"))
  /\ DatabricksHook._parse_host "https://xx.cloud.databricks.com"
     = Return "xx.cloud.databricks.com"
  /\ DatabricksHook._parse_host "xx.cloud.databricks.com"
     = Return "xx.cloud.databricks.com"
  /\ (forall h h' : string,
        DatabricksHook._parse_host h = Return h' ->
        DatabricksHook._parse_host h' = Return h')
  /\ (forall h : string,
        DatabricksHook._parse_host h ≫= DatabricksHook._parse_host
        = DatabricksHook._parse_host h).
Proof.
  split; [|split; [|split; [|split; [|split; [|split; [|split]]]]]].
  - intros h x H. unfold DatabricksHook._parse_host. rewrite H. simpl.
    now rewrite (urlparse_hostname_nonempty h x H).
  - intros h H. unfold DatabricksHook._parse_host. now rewrite H.
  - intros h e. unfold DatabricksHook._parse_host.
    destruct (Urllib.urlparse_hostname h) as [[x|]|e'];
      simpl; [destruct (Str.is_empty x)| |]; split; congruence.
  - intros netloc rest Hnet Hrest Hbr.
    unfold DatabricksHook._parse_host, Urllib.urlparse_hostname.
    rewrite urlsplit_netloc_https.
    now rewrite (netloc_of_unmatched_bracket netloc rest Hnet Hrest Hbr).
  - reflexivity.
  - reflexivity.
  - exact parse_host_fixed.
  - intros h. destruct (DatabricksHook._parse_host h) as [h'|e] eqn:E; simpl.
    + exact (parse_host_fixed h h' E).
    + reflexivity.
Qed.

Lemma parse_host_spec_witness :
  DatabricksHook._parse_host "https://XX.cloud.databricks.com/path"
  = Return "xx.cloud.databricks.com"
  /\ DatabricksHook._parse_host "xx.cloud.databricks.com"
     = Return "xx.cloud.databricks.com".
Proof.
  destruct parse_host_spec as (Hsome & _ & _ & _ & _ & _ & Hfix & _).
  assert (H : DatabricksHook._parse_host "https://XX.cloud.databricks.com/path"
              = Return "xx.cloud.databricks.com")
    by (apply Hsome; reflexivity).
  split; [exact H | exact (Hfix _ _ H)].
Defined.

(** ** The retry loop *)

Section RetryLoop.

Variables (env : Env) (self : DatabricksHook.t) (req : Request).

Local Abbreviation loop := (DatabricksHook.retry_loop env self req).
Local Abbreviation outcome_at w :=
  (DatabricksHook.attempt (transport env (length (sent w)) req)).
Local Abbreviation failed w a e := (log (send w req) (LogError a e)).

(** One iteration, by the four ways it can go. *)
Lemma retry_loop_returned (fuel : nat) (a : Z) (w : World) (body : JSON) :
  outcome_at w = DatabricksHook.Returned body ->
  loop (S fuel) a w = Some (Return body, send w req).
Proof. intros H. simpl. now rewrite H. Qed.

Lemma retry_loop_uncaught (fuel : nat) (a : Z) (w : World) (e : PyExc) :
  outcome_at w = DatabricksHook.Uncaught e ->
  loop (S fuel) a w = Some (Raise e, send w req).
Proof. intros H. simpl. now rewrite H. Qed.

Lemma retry_loop_fatal (fuel : nat) (a : Z) (w : World) (e : RequestException) :
  outcome_at w = DatabricksHook.Caught e ->
  _retryable_error e = false ->
  loop (S fuel) a w
  = Some (match DatabricksHook.fatal_message e with
          | Return msg => Raise (AirflowException msg)
          | Raise err => Raise err
          end, send w req).
Proof.
  intros H Hfatal. simpl. rewrite H, Hfatal. simpl.
  now destruct (DatabricksHook.fatal_message e).
Qed.

Lemma retry_loop_give_up (fuel : nat) (a : Z) (w : World) (e : RequestException) :
  outcome_at w = DatabricksHook.Caught e ->
  _retryable_error e = true ->
  a = DatabricksHook.retry_limit self ->
  loop (S fuel) a w
  = Some (Raise (AirflowException (DatabricksHook.giving_up_message self)),
          failed w a e).
Proof.
  intros H Hretry ->. simpl. rewrite H, Hretry. simpl.
  now rewrite Z.eqb_refl.
Qed.

Lemma retry_loop_again (fuel : nat) (a : Z) (w : World) (e : RequestException) :
  outcome_at w = DatabricksHook.Caught e ->
  _retryable_error e = true ->
  a <> DatabricksHook.retry_limit self ->
  nonnegative (DatabricksHook.retry_delay self) = true ->
  loop (S fuel) a w
  = loop fuel (a + 1) (sleep (failed w a e) (DatabricksHook.retry_delay self)).
Proof.
  intros H Hretry Hne Hdelay. simpl. rewrite H, Hretry. simpl.
  apply Z.eqb_neq in Hne. rewrite Hne. unfold time_sleep. now rewrite Hdelay.
Qed.

(** A negative delay ends the call at the first sleep. *)
Lemma retry_loop_sleep_refused (fuel : nat) (a : Z) (w : World)
    (e : RequestException) :
  outcome_at w = DatabricksHook.Caught e ->
  _retryable_error e = true ->
  a <> DatabricksHook.retry_limit self ->
  nonnegative (DatabricksHook.retry_delay self) = false ->
  loop (S fuel) a w
  = Some (Raise (ValueError "sleep length must be non-negative"), failed w a e).
Proof.
  intros H Hretry Hne Hdelay. simpl. rewrite H, Hretry. simpl.
  apply Z.eqb_neq in Hne. rewrite Hne. unfold time_sleep. now rewrite Hdelay.
Qed.

Lemma replicate_snoc_app {A : Type} (l : list A) (x : A) (n : nat) :
  (l ++ [x]) ++ replicate n x = l ++ replicate (S n) x.
Proof. now rewrite <- app_assoc. Qed.

(** The loop is bounded: started at attempt [a] with [n] attempts left
    after this one, it ends within [n + 1] iterations whatever the network
    does, having sent one request per iteration and slept once between
    two consecutive requests. *)
Lemma retry_loop_bounded (n : nat) :
  forall (fuel : nat) (a : Z) (w : World),
    a + Z.of_nat n = DatabricksHook.retry_limit self ->
    (n < fuel)%nat ->
    exists (res : Res JSON) (w' : World) (k : nat),
      loop fuel a w = Some (res, w') /\
      (1 <= k <= S n)%nat /\
      sent w' = sent w ++ replicate k req /\
      slept w' = slept w ++ replicate (k - 1) (DatabricksHook.retry_delay self).
Proof.
  induction n as [|n IH]; intros fuel a w Ha Hfuel;
    (destruct fuel as [|fuel]; [lia|]);
    destruct (outcome_at w) as [body|e|e] eqn:E.
  all: try (eexists _, _, 1%nat;
            rewrite (retry_loop_returned _ _ _ _ E)
            || rewrite (retry_loop_uncaught _ _ _ _ E);
            simpl; rewrite app_nil_r; repeat split; lia).
  all: destruct (_retryable_error e) eqn:R;
    try (eexists _, _, 1%nat; rewrite (retry_loop_fatal _ _ _ _ E R);
         simpl; rewrite app_nil_r; repeat split; lia).
  - eexists _, _, 1%nat. rewrite (retry_loop_give_up _ _ _ _ E R); [|lia].
    simpl. rewrite app_nil_r. repeat split; lia.
  - destruct (nonnegative (DatabricksHook.retry_delay self)) eqn:D.
    + rewrite (retry_loop_again _ _ _ _ E R); [|lia|exact D].
      destruct (IH fuel (a + 1)
                  (sleep (failed w a e) (DatabricksHook.retry_delay self)))
        as (res & w' & k & Hrun & Hk & Hsent & Hslept); [lia | lia |].
      exists res, w', (S k). split; [exact Hrun|]. split; [lia|].
      simpl sent in Hsent. simpl slept in Hslept.
      rewrite Hsent, Hslept. split; [apply replicate_snoc_app|].
      replace (S k - 1)%nat with (S (k - 1)) by lia.
      apply replicate_snoc_app.
    + eexists _, _, 1%nat. rewrite (retry_loop_sleep_refused _ _ _ _ E R); [|lia|exact D].
      simpl. rewrite app_nil_r. repeat split; lia.
Qed.

(** When every attempt fails with a retryable error, the loop started at
    attempt [a] with [n] attempts left after this one runs all [n + 1]
    of them and gives up. *)
Lemma retry_loop_exhausted (n : nat) :
  nonnegative (DatabricksHook.retry_delay self) = true ->
  forall (fuel : nat) (a : Z) (w : World),
    a + Z.of_nat n = DatabricksHook.retry_limit self ->
    (forall i : nat, (length (sent w) <= i)%nat ->
       exists e, DatabricksHook.attempt (transport env i req) = DatabricksHook.Caught e /\
                 _retryable_error e = true) ->
    (n < fuel)%nat ->
    exists w' : World,
      loop fuel a w
      = Some (Raise (AirflowException (DatabricksHook.giving_up_message self)), w') /\
      sent w' = sent w ++ replicate (S n) req /\
      slept w' = slept w ++ replicate n (DatabricksHook.retry_delay self) /\
      length (logged w') = (length (logged w) + S n)%nat.
Proof.
  intros Hdelay.
  induction n as [|n IH]; intros fuel a w Ha Hall Hfuel;
    (destruct fuel as [|fuel]; [lia|]);
    destruct (Hall (length (sent w)) (le_n _)) as (e & E & R).
  - rewrite (retry_loop_give_up _ _ _ _ E R); [|lia].
    eexists. split; [reflexivity|]. simpl. rewrite app_nil_r, length_app.
    simpl. repeat split; lia.
  - rewrite (retry_loop_again _ _ _ _ E R); [|lia|exact Hdelay].
    destruct (IH fuel (a + 1)
                (sleep (failed w a e) (DatabricksHook.retry_delay self)))
      as (w' & Hrun & Hsent & Hslept & Hlog); [lia | | lia |].
    { intros i Hi. apply Hall. simpl in Hi. rewrite length_app in Hi. lia. }
    exists w'. split; [exact Hrun|].
    simpl sent in Hsent. simpl slept in Hslept. simpl logged in Hlog.
    rewrite Hsent, Hslept, Hlog, length_app.
    split; [exact (replicate_snoc_app _ req (S n))|].
    split; [exact (replicate_snoc_app _ _ n) | simpl; lia].
Qed.

End RetryLoop.

(** The steps before the loop send nothing and never sleep. *)
Lemma prepare_quiet (env : Env) (self : DatabricksHook.t)
    (endpoint_info : string * string) (json : JSON) (w0 w : World)
    (r : Res Request) :
  DatabricksHook.prepare env self endpoint_info json w0 = (r, w) ->
  sent w = sent w0 /\ slept w = slept w0.
Proof.
  unfold DatabricksHook.prepare. destruct endpoint_info as [method endpoint].
  destruct (get_connection env _) as [conn|e]; [|intros [= _ <-]; auto].
  destruct (extra_dejson conn !! "token") as [token|];
    intros [= _ <-]; auto.
Qed.

(** The [auth] argument of the request is chosen by the [token] key alone. *)
Lemma prepare_auth (env : Env) (self : DatabricksHook.t)
    (endpoint_info : string * string) (json : JSON) (w0 w : World)
    (conn : Connection) (req : Request) :
  get_connection env (DatabricksHook.databricks_conn_id self) = Return conn ->
  DatabricksHook.prepare env self endpoint_info json w0 = (Return req, w) ->
  auth req = match extra_dejson conn !! "token" with
             | Some token => TokenAuth (_TokenAuth.__init__ token)
             | None => BasicAuth (login conn) (password conn)
             end.
Proof.
  unfold DatabricksHook.prepare. destruct endpoint_info as [method endpoint].
  intros ->.
  destruct (extra_dejson conn !! "token") as [token|].
  - destruct (extra_dejson conn !! "host") as [extra_host|].
    + destruct (DatabricksHook._parse_host extra_host) as [h|]; simpl; [|discriminate].
      destruct (DatabricksHook._parse_host h); simpl; [|discriminate].
      repeat destruct (String.eqb method _); simpl; intros [= <- _]; reflexivity.
    + simpl. destruct (DatabricksHook._parse_host (host conn)); simpl; [|discriminate].
      repeat destruct (String.eqb method _); simpl; intros [= <- _]; reflexivity.
  - simpl. destruct (DatabricksHook._parse_host (host conn)); simpl; [|discriminate].
    repeat destruct (String.eqb method _); simpl; intros [= <- _]; reflexivity.
Qed.

(** ** The API call *)

Lemma attempt_http_error (r : Response) :
  400 <= status_code r < 600 ->
  DatabricksHook.attempt (Responds r)
  = DatabricksHook.Caught {| exc_class := HTTPError; response := Some r |}.
Proof.
  intros [Hlo Hhi]. unfold DatabricksHook.attempt, raise_for_status.
  apply Z.leb_le in Hlo. apply Z.ltb_lt in Hhi. now rewrite Hlo, Hhi.
Qed.

Lemma attempt_success (r : Response) (body : JSON) :
  200 <= status_code r < 300 ->
  json_result r = Return body ->
  DatabricksHook.attempt (Responds r) = DatabricksHook.Returned body.
Proof.
  intros [Hlo Hhi] Hjson. unfold DatabricksHook.attempt, raise_for_status.
  assert (H : (400 <=? status_code r) = false) by (apply Z.leb_gt; lia).
  now rewrite H, Hjson.
Qed.

Lemma http_error_retryable (r : Response) :
  _retryable_error {| exc_class := HTTPError; response := Some r |}
  = (500 <=? status_code r).
Proof. reflexivity. Qed.

(** C1. A first attempt that raises a [RequestException] which is neither a
    [ConnectionError] nor a [Timeout] and carries no response ends the call
    at once, with one request sent and no sleep, but the error that leaves
    [_do_api_call] is the [AttributeError] of reading [e.response.content],
    not an [AirflowException]. *)
Theorem fatal_without_response (env : Env) (self : DatabricksHook.t)
    (endpoint_info : string * string) (json : JSON) (w0 w : World)
    (req : Request) (e : RequestException) (fuel : nat) :
  DatabricksHook.prepare env self endpoint_info json w0 = (Return req, w) ->
  transport env (length (sent w0)) req = Fails e ->
  is_connection_error_or_timeout (exc_class e) = false ->
  response e = None ->
  (1 <= fuel)%nat ->
  _retryable_error e = false /\
  DatabricksHook._do_api_call env self endpoint_info json fuel w0
  = Some (Raise (AttributeError "'NoneType' object has no attribute 'content'"),
          send w req) /\
  sent (send w req) = sent w0 ++ [req] /\
  slept (send w req) = slept w0.
Proof.
  intros Hprep Hnet Hcls Hresp Hfuel.
  destruct (prepare_quiet _ _ _ _ _ _ _ Hprep) as [Hsent Hslept].
  assert (Hfatal : _retryable_error e = false)
    by (unfold _retryable_error; now rewrite Hcls, Hresp).
  split; [exact Hfatal|]. split.
  - unfold DatabricksHook._do_api_call. rewrite Hprep.
    destruct fuel as [|fuel]; [lia|].
    rewrite (retry_loop_fatal env self req fuel 1 w e); [| |exact Hfatal].
    + unfold DatabricksHook.fatal_message. now rewrite Hresp.
    + now rewrite Hsent, Hnet.
  - simpl. now rewrite Hsent, Hslept.
Qed.

Lemma fatal_without_response_witness :
  DatabricksHook._do_api_call
    (Sample.env Sample.basic_connection
       (Sample.scripted [] (Fails {| exc_class := InvalidURL; response := None |})))
    (Sample.hook 3) SUBMIT_RUN_ENDPOINT Sample.payload 3 Sample.fresh
  = Some (Raise (AttributeError "'NoneType' object has no attribute 'content'"),
          send (log (set_databricks_conn Sample.fresh Sample.basic_connection)
                  (LogInfo "Using basic auth. "))
            (Sample.request Sample.basic_connection requests_post
               "api/2.0/jobs/runs/submit" (BasicAuth (Some "user") (Some "secret")))).
Proof.
  refine (proj1 (proj2 (fatal_without_response _ _ _ _ _ _ _
                          {| exc_class := InvalidURL; response := None |} 3%nat
                          _ _ _ _ _)));
    solve [reflexivity | lia].
Defined.

(** C2. With [retry_limit >= 1] and a delay that [time.sleep] accepts
    ([retry_delay >= 0]), if every attempt fails with a retryable error, the
    call sends exactly [retry_limit] requests, sleeps [retry_delay] between
    consecutive ones, logs each failure, and then raises the giving-up
    [AirflowException]. *)
Theorem retry_exhaustion (env : Env) (self : DatabricksHook.t)
    (endpoint_info : string * string) (json : JSON) (w0 w : World)
    (req : Request) (fuel : nat) :
  1 <= DatabricksHook.retry_limit self ->
  nonnegative (DatabricksHook.retry_delay self) = true ->
  DatabricksHook.prepare env self endpoint_info json w0 = (Return req, w) ->
  (forall i : nat, (length (sent w0) <= i)%nat ->
     exists e, DatabricksHook.attempt (transport env i req) = DatabricksHook.Caught e /\
               _retryable_error e = true) ->
  (Z.to_nat (DatabricksHook.retry_limit self) <= fuel)%nat ->
  exists w' : World,
    DatabricksHook._do_api_call env self endpoint_info json fuel w0
    = Some (Raise (AirflowException
                     ("API requests to Databricks failed " +:+
                      pretty (DatabricksHook.retry_limit self) +:+
                      " times. Giving up.")), w') /\
    sent w' = sent w0 ++ replicate (Z.to_nat (DatabricksHook.retry_limit self)) req /\
    slept w' = slept w0 ++ replicate (Z.to_nat (DatabricksHook.retry_limit self) - 1)
                             (DatabricksHook.retry_delay self) /\
    length (logged w')
    = (length (logged w) + Z.to_nat (DatabricksHook.retry_limit self))%nat.
Proof.
  intros Hlimit Hdelay Hprep Hall Hfuel.
  destruct (prepare_quiet _ _ _ _ _ _ _ Hprep) as [Hsent Hslept].
  unfold DatabricksHook._do_api_call. rewrite Hprep.
  destruct (retry_loop_exhausted env self req
              (Z.to_nat (DatabricksHook.retry_limit self) - 1) Hdelay fuel 1 w)
    as (w' & Hrun & Hs & Hz & Hl); [lia | | lia |].
  { intros i Hi. apply Hall. now rewrite <- Hsent. }
  exists w'. split; [exact Hrun|].
  replace (S (Z.to_nat (DatabricksHook.retry_limit self) - 1))
    with (Z.to_nat (DatabricksHook.retry_limit self)) in * by lia.
  rewrite <- Hsent, <- Hslept. auto.
Qed.

Lemma retry_exhaustion_witness :
  exists w' : World,
    DatabricksHook._do_api_call
      (Sample.env Sample.token_connection
         (Sample.scripted [] (Responds Sample.server_error)))
      (Sample.hook 2) GET_RUN_ENDPOINT Sample.payload 2 Sample.fresh
    = Some (Raise (AirflowException
                     "API requests to Databricks failed 2 times. Giving up."), w') /\
    length (sent w') = 2%nat /\
    length (slept w') = 1%nat.
Proof.
  destruct (retry_exhaustion
              (Sample.env Sample.token_connection
                 (Sample.scripted [] (Responds Sample.server_error)))
              (Sample.hook 2) GET_RUN_ENDPOINT Sample.payload Sample.fresh
              (log (set_databricks_conn Sample.fresh Sample.token_connection)
                 (LogInfo "Using token auth. "))
              (Sample.request Sample.token_connection requests_get
                 "api/2.0/jobs/runs/get" (TokenAuth (_TokenAuth.mk "dapi-0123")))
              2%nat)
    as (w' & Hrun & Hsent & Hslept & _).
  - simpl. lia.
  - reflexivity.
  - reflexivity.
  - intros i _. eexists. split.
    + unfold Sample.env, Sample.scripted. simpl transport.
      destruct i; apply attempt_http_error; simpl; lia.
    + reflexivity.
  - simpl. lia.
  - exists w'. split; [exact Hrun|]. rewrite Hsent, Hslept. split; reflexivity.
Defined.

(** C3. With [retry_limit = 3] and a delay that [time.sleep] accepts
    ([retry_delay >= 0]), if the first two attempts receive a 500 response
    and the third a 2xx response whose body decodes, the call returns the
    decoded body after three requests and exactly two sleeps of
    [retry_delay]. *)
Theorem retry_then_success (env : Env) (self : DatabricksHook.t)
    (endpoint_info : string * string) (json : JSON) (w0 w : World)
    (req : Request) (r1 r2 r3 : Response) (body : JSON) (fuel : nat) :
  DatabricksHook.retry_limit self = 3 ->
  nonnegative (DatabricksHook.retry_delay self) = true ->
  DatabricksHook.prepare env self endpoint_info json w0 = (Return req, w) ->
  transport env (length (sent w0)) req = Responds r1 ->
  status_code r1 = 500 ->
  transport env (S (length (sent w0))) req = Responds r2 ->
  status_code r2 = 500 ->
  transport env (S (S (length (sent w0)))) req = Responds r3 ->
  200 <= status_code r3 < 300 ->
  json_result r3 = Return body ->
  (3 <= fuel)%nat ->
  exists w' : World,
    DatabricksHook._do_api_call env self endpoint_info json fuel w0
    = Some (Return body, w') /\
    sent w' = sent w0 ++ [req; req; req] /\
    slept w' = slept w0 ++ [DatabricksHook.retry_delay self;
                            DatabricksHook.retry_delay self].
Proof.
  intros Hlimit Hdelay Hprep H1 S1 H2 S2 H3 S3 Hjson Hfuel.
  destruct (prepare_quiet _ _ _ _ _ _ _ Hprep) as [Hsent Hslept].
  unfold DatabricksHook._do_api_call. rewrite Hprep.
  destruct fuel as [|[|[|fuel]]]; try lia.
  erewrite retry_loop_again;
    [| rewrite Hsent, H1; apply attempt_http_error; lia
     | rewrite http_error_retryable, S1; reflexivity
     | lia
     | exact Hdelay].
  erewrite retry_loop_again;
    [| simpl sent; rewrite length_app, Hsent; simpl length;
       replace (length (sent w0) + 1)%nat with (S (length (sent w0))) by lia;
       rewrite H2; apply attempt_http_error; lia
     | rewrite http_error_retryable, S2; reflexivity
     | lia
     | exact Hdelay].
  erewrite retry_loop_returned;
    [| simpl sent; rewrite !length_app, Hsent; simpl length;
       replace (length (sent w0) + 1 + 1)%nat with (S (S (length (sent w0)))) by lia;
       rewrite H3; apply attempt_success; [exact S3 | exact Hjson]].
  eexists. split; [reflexivity|]. simpl. rewrite Hsent, Hslept, <- !app_assoc.
  split; reflexivity.
Qed.

Lemma retry_then_success_witness :
  exists w' : World,
    DatabricksHook._do_api_call
      (Sample.env Sample.basic_connection
         (Sample.scripted [Responds Sample.server_error; Responds Sample.server_error;
                           Responds Sample.ok]
            (Responds Sample.not_found)))
      (Sample.hook 3) SUBMIT_RUN_ENDPOINT Sample.payload 3 Sample.fresh
    = Some (Return Sample.run_id_body, w') /\
    length (sent w') = 3%nat /\
    slept w' = [QArith_base.Qmake 1 1; QArith_base.Qmake 1 1].
Proof.
  destruct (retry_then_success
              (Sample.env Sample.basic_connection
                 (Sample.scripted [Responds Sample.server_error;
                                   Responds Sample.server_error; Responds Sample.ok]
                    (Responds Sample.not_found)))
              (Sample.hook 3) SUBMIT_RUN_ENDPOINT Sample.payload Sample.fresh
              (log (set_databricks_conn Sample.fresh Sample.basic_connection)
                 (LogInfo "Using basic auth. "))
              (Sample.request Sample.basic_connection requests_post
                 "api/2.0/jobs/runs/submit" (BasicAuth (Some "user") (Some "secret")))
              Sample.server_error Sample.server_error Sample.ok
              Sample.run_id_body 3%nat)
    as (w' & Hrun & Hsent & Hslept);
    try solve [reflexivity | simpl; lia].
  exists w'. split; [exact Hrun|]. rewrite Hsent, Hslept. split; reflexivity.
Defined.

(** C4. Whatever [retry_limit] and [retry_delay] are, a 404 response to the
    first attempt ends the call after that single request: it raises the
    [AirflowException] built from the response body and the status code,
    without sleeping and without logging a retry. *)
Theorem not_found_is_fatal (env : Env) (self : DatabricksHook.t)
    (endpoint_info : string * string) (json : JSON) (w0 w : World)
    (req : Request) (r : Response) (fuel : nat) :
  DatabricksHook.prepare env self endpoint_info json w0 = (Return req, w) ->
  transport env (length (sent w0)) req = Responds r ->
  status_code r = 404 ->
  (1 <= fuel)%nat ->
  DatabricksHook._do_api_call env self endpoint_info json fuel w0
  = Some (Raise (AirflowException
                   ("Response: " +:+ Bytes.repr (content r) +:+
                    ", Status Code: 404")), send w req) /\
  sent (send w req) = sent w0 ++ [req] /\
  slept (send w req) = slept w0 /\
  logged (send w req) = logged w.
Proof.
  intros Hprep Hnet Hstatus Hfuel.
  destruct (prepare_quiet _ _ _ _ _ _ _ Hprep) as [Hsent Hslept].
  split.
  - unfold DatabricksHook._do_api_call. rewrite Hprep.
    destruct fuel as [|fuel]; [lia|].
    rewrite (retry_loop_fatal env self req fuel 1 w
               {| exc_class := HTTPError; response := Some r |}).
    + unfold DatabricksHook.fatal_message. simpl. now rewrite Hstatus.
    + rewrite Hsent, Hnet. apply attempt_http_error. lia.
    + rewrite http_error_retryable, Hstatus. reflexivity.
  - simpl. now rewrite Hsent, Hslept.
Qed.

Lemma not_found_is_fatal_witness :
  DatabricksHook._do_api_call
    (Sample.env Sample.token_connection
       (Sample.scripted [Responds Sample.not_found] (Responds Sample.ok)))
    (Sample.hook 3) GET_RUN_ENDPOINT Sample.payload 3 Sample.fresh
  = Some (Raise (AirflowException "Response: b'Not Found', Status Code: 404"),
          send (log (set_databricks_conn Sample.fresh Sample.token_connection)
                  (LogInfo "Using token auth. "))
            (Sample.request Sample.token_connection requests_get
               "api/2.0/jobs/runs/get" (TokenAuth (_TokenAuth.mk "dapi-0123")))).
Proof.
  refine (proj1 (not_found_is_fatal _ _ _ _ _ _ _ Sample.not_found 3%nat _ _ _ _));
    solve [reflexivity | lia].
Defined.

(** C7. For every connection, when the call reaches the network every
    request it sends carries the same [auth]: if the connection's extra
    fields have a [token] key it is a [_TokenAuth] for that token, which
    signs a request by setting its [Authorization] header to
    [Bearer <token>]; otherwise it is the pair of the connection's login and
    password, the HTTP Basic credentials. At least one request is sent. *)
Theorem auth_selection (env : Env) (self : DatabricksHook.t)
    (endpoint_info : string * string) (json : JSON) (w0 w : World)
    (conn : Connection) (req : Request) (fuel : nat) :
  1 <= DatabricksHook.retry_limit self ->
  get_connection env (DatabricksHook.databricks_conn_id self) = Return conn ->
  DatabricksHook.prepare env self endpoint_info json w0 = (Return req, w) ->
  (Z.to_nat (DatabricksHook.retry_limit self) <= fuel)%nat ->
  exists (res : Res JSON) (w' : World) (k : nat),
    DatabricksHook._do_api_call env self endpoint_info json fuel w0 = Some (res, w') /\
    (1 <= k)%nat /\
    sent w' = sent w0 ++ replicate k req /\
    match extra_dejson conn !! "token" with
    | Some token =>
        exists a : _TokenAuth.t,
          auth req = TokenAuth a /\
          forall r : PreparedRequest,
            prepared_headers (_TokenAuth.__call__ a r) !! "Authorization"
            = Some ("Bearer " +:+ token)
    | None => auth req = BasicAuth (login conn) (password conn)
    end.
Proof.
  intros Hlimit Hconn Hprep Hfuel.
  destruct (prepare_quiet _ _ _ _ _ _ _ Hprep) as [Hsent _].
  pose proof (prepare_auth _ _ _ _ _ _ _ _ Hconn Hprep) as Hauth.
  unfold DatabricksHook._do_api_call. rewrite Hprep.
  destruct (retry_loop_bounded env self req
              (Z.to_nat (DatabricksHook.retry_limit self) - 1) fuel 1 w)
    as (res & w' & k & Hrun & Hk & Hs & _); [lia | lia |].
  exists res, w', k. split; [exact Hrun|]. split; [lia|].
  split; [now rewrite <- Hsent|].
  destruct (extra_dejson conn !! "token") as [token|]; [|exact Hauth].
  eexists. split; [exact Hauth|].
  intros r. simpl. apply lookup_insert_eq.
Qed.

Lemma auth_selection_witness :
  (exists (res : Res JSON) (w' : World) (k : nat),
     DatabricksHook._do_api_call
       (Sample.env Sample.token_connection
          (Sample.scripted [] (Responds Sample.ok)))
       (Sample.hook 3) GET_RUN_ENDPOINT Sample.payload 3 Sample.fresh
     = Some (res, w') /\
     (1 <= k)%nat /\
     sent w' = replicate k
                 (Sample.request Sample.token_connection requests_get
                    "api/2.0/jobs/runs/get" (TokenAuth (_TokenAuth.mk "dapi-0123"))) /\
     forall r : PreparedRequest,
       prepared_headers (_TokenAuth.__call__ (_TokenAuth.mk "dapi-0123") r)
         !! "Authorization" = Some "Bearer dapi-0123").
Proof.
  destruct (auth_selection
              (Sample.env Sample.token_connection
                 (Sample.scripted [] (Responds Sample.ok)))
              (Sample.hook 3) GET_RUN_ENDPOINT Sample.payload Sample.fresh
              (log (set_databricks_conn Sample.fresh Sample.token_connection)
                 (LogInfo "Using token auth. "))
              Sample.token_connection
              (Sample.request Sample.token_connection requests_get
                 "api/2.0/jobs/runs/get" (TokenAuth (_TokenAuth.mk "dapi-0123")))
              3%nat)
    as (res & w' & k & Hrun & Hk & Hsent & Hauth);
    try solve [reflexivity | simpl; lia].
  exists res, w', k. split; [exact Hrun|]. split; [exact Hk|].
  split; [exact Hsent|].
  change (extra_dejson Sample.token_connection !! "token") with (Some "dapi-0123") in Hauth.
  destruct Hauth as (a & [= <-] & Hsign). exact Hsign.
Defined.

(** * Further properties of the hook *)

(** ** Equality of run states *)

(** X1. [__eq__] between run states is an equivalence: it answers true on a
    run state and itself, gives the same answer in both directions, and is
    transitive. Compared with an object that is not a run state it answers
    [NotImplemented]. *)
Theorem run_state_eq_equivalence (a b c : RunState.t) :
  RunState.__eq__ a (RunState.IsRunState a) = Return (RunState.Bool true)
  /\ RunState.__eq__ a (RunState.IsRunState b) = RunState.__eq__ b (RunState.IsRunState a)
  /\ (RunState.__eq__ a (RunState.IsRunState b) = Return (RunState.Bool true) ->
      RunState.__eq__ b (RunState.IsRunState c) = Return (RunState.Bool true) ->
      RunState.__eq__ a (RunState.IsRunState c) = Return (RunState.Bool true))
  /\ RunState.__eq__ a RunState.NotRunState = Return RunState.NotImplemented.
Proof.
  assert (Heq : forall x y,
             RunState.__eq__ x (RunState.IsRunState y) = Return (RunState.Bool true)
             <-> x = y).
  { intros x y. unfold RunState.__eq__. rewrite <- run_state_eqb_eq.
    split; [intros [= H]; exact H | intros ->; reflexivity]. }
  split; [now apply Heq|]. split; [|split; [|reflexivity]].
  - unfold RunState.__eq__. do 2 f_equal.
    rewrite (String.eqb_sym (RunState.life_cycle_state a)),
            (String.eqb_sym (RunState.state_message a)).
    do 2 f_equal.
    destruct (RunState.result_state a) as [x|], (RunState.result_state b) as [y|];
      simpl; try reflexivity. apply String.eqb_sym.
  - rewrite !Heq. congruence.
Qed.

Lemma run_state_eq_equivalence_witness :
  RunState.__eq__ (RunState.mk "RUNNING" None "In run")
    (RunState.IsRunState (RunState.mk "RUNNING" None "In run"))
  = Return (RunState.Bool true).
Proof.
  refine (proj1 (proj2 (proj2 (run_state_eq_equivalence
                                 (RunState.mk "RUNNING" None "In run")
                                 (RunState.mk "RUNNING" None "In run")
                                 (RunState.mk "RUNNING" None "In run"))))
            _ _); reflexivity.
Defined.

(** ** Signing with a token *)

(** X2. After signing with a [_TokenAuth], the header [Authorization] reads
    [Bearer <token>] under every spelling of its name; it is stored under
    the spelling [Authorization] and under no other, so an earlier entry
    spelt [authorization] is replaced. Every header whose ASCII name is not
    [authorization] up to case reads as before. Signing twice is the same
    as signing once. *)
Theorem token_auth_signs (a : _TokenAuth.t) (r : PreparedRequest) :
  (forall name : string,
     Str.lower name = "authorization" ->
     Headers.getitem (prepared_headers (_TokenAuth.__call__ a r)) name
     = Some ("Bearer " +:+ _TokenAuth.token a))
  /\ prepared_headers (_TokenAuth.__call__ a r) !! "Authorization"
     = Some ("Bearer " +:+ _TokenAuth.token a)
  /\ (forall name : string,
        Str.lower name = "authorization" ->
        name <> "Authorization" ->
        prepared_headers (_TokenAuth.__call__ a r) !! name = None)
  /\ (forall name : string,
        Str.all Urllib.is_ascii name = true ->
        Str.lower name <> "authorization" ->
        Headers.getitem (prepared_headers (_TokenAuth.__call__ a r)) name
        = Headers.getitem (prepared_headers r) name)
  /\ _TokenAuth.__call__ a (_TokenAuth.__call__ a r) = _TokenAuth.__call__ a r.
Proof.
  unfold _TokenAuth.__call__, Headers.setitem, Headers.getitem. simpl.
  split; [|split; [apply lookup_insert_eq|split; [|split]]].
  - intros name Hlower.
    rewrite map_filter_insert_True by (simpl; now rewrite Hlower).
    replace (filter _ (filter _ (prepared_headers r)))
      with (∅ : gmap string string).
    + now rewrite insert_empty, map_to_list_singleton.
    + symmetry. apply map_eq. intros i. rewrite lookup_empty.
      apply map_lookup_filter_None_2. right. intros x Hx HQ.
      apply map_lookup_filter_Some_1_2 in Hx. apply Hx. simpl in *.
      now rewrite HQ, Hlower.
  - intros name Hlower Hne. rewrite lookup_insert_ne by congruence.
    apply map_lookup_filter_None_2. right. intros x _ HP. apply HP.
    simpl. now rewrite Hlower.
  - intros name _ Hlower.
    rewrite map_filter_insert_not
      by (intros y HQ; apply Hlower; simpl in HQ; now rewrite <- HQ).
    rewrite map_filter_filter_l; [reflexivity|].
    intros i x _ HQ HP. apply Hlower. simpl in *. now rewrite <- HQ, HP.
  - f_equal. rewrite map_filter_insert_not by (intros y HP; now apply HP).
    f_equal. apply map_filter_filter_l. auto.
Qed.

Lemma token_auth_signs_witness :
  Headers.getitem
    (prepared_headers
       (_TokenAuth.__call__ (_TokenAuth.mk "dapi-0123")
          {| prepared_headers := {[ "user-agent" := "airflow-2.0.0";
                                    "authorization" := "Basic dXNlcg==" ]} |}))
    "authorization" = Some "Bearer dapi-0123"
  /\ Headers.getitem
       (prepared_headers
          (_TokenAuth.__call__ (_TokenAuth.mk "dapi-0123")
             {| prepared_headers := {[ "user-agent" := "airflow-2.0.0";
                                       "authorization" := "Basic dXNlcg==" ]} |}))
       "User-Agent" = Some "airflow-2.0.0".
Proof.
  destruct (token_auth_signs (_TokenAuth.mk "dapi-0123")
              {| prepared_headers := {[ "user-agent" := "airflow-2.0.0";
                                        "authorization" := "Basic dXNlcg==" ]} |})
    as (Hread & _ & _ & Hkept & _).
  split.
  - apply Hread. reflexivity.
  - rewrite Hkept; [vm_compute; reflexivity | reflexivity | discriminate].
Defined.

(** ** More on host normalisation *)

Lemma contains_without (c : ascii) (s : string) :
  without c s -> Str.contains c s = false.
Proof. unfold without, Str.contains. now intros ->. Qed.

Lemma without_contains (c : ascii) (s : string) :
  Str.contains c s = false -> without c s.
Proof. unfold without, Str.contains. now destruct (Str.all _ s). Qed.

Lemma partition_without (sep : ascii) (s : string) :
  without sep s -> Str.partition sep s = (s, false, EmptyString).
Proof.
  unfold without. induction s as [|c s IH]; simpl; [reflexivity|].
  rewrite andb_true_iff, negb_true_iff. intros [-> Hs]. now rewrite (IH Hs).
Qed.

Lemma rpartition_without (sep : ascii) (s : string) :
  without sep s -> Str.rpartition sep s = (EmptyString, false, s).
Proof.
  unfold without. induction s as [|c s IH]; simpl; [reflexivity|].
  rewrite andb_true_iff, negb_true_iff. intros [-> Hs]. now rewrite (IH Hs).
Qed.

Lemma append_empty_r (s : string) : s +:+ EmptyString = s.
Proof.
  induction s as [|c s IH]; [reflexivity|].
  change (String c (s +:+ EmptyString) = String c s). now rewrite IH.
Qed.

Lemma all_splitnetloc (P : ascii -> bool) (u : string) :
  Str.all P u = true -> Str.all P (fst (Urllib._splitnetloc u)) = true.
Proof.
  induction u as [|c u IH]; simpl; [reflexivity|].
  rewrite andb_true_iff. intros [Hc Hu].
  destruct (Urllib.is_netloc_delim c); simpl; [reflexivity|].
  specialize (IH Hu). destruct (Urllib._splitnetloc u) as [domain rest].
  simpl in *. now rewrite Hc.
Qed.

(** The block [if url[:2] == '//'] either finds no network location, or the
    text starts with two slashes. *)
Lemma netloc_of_inv (u : string) :
  Urllib.netloc_of u = Return EmptyString \/
  exists url', u = String "/" (String "/" url').
Proof.
  destruct u as [|c u]; [left; reflexivity|].
  destruct (Ascii.eqb_spec c "/") as [->|Hc].
  - destruct u as [|d u]; [left; reflexivity|].
    destruct (Ascii.eqb_spec d "/") as [->|Hd]; [right; eauto|].
    left. destruct d as [[] [] [] [] [] [] [] []];
      solve [contradiction Hd; reflexivity | reflexivity].
  - left. destruct c as [[] [] [] [] [] [] [] []];
      solve [contradiction Hc; reflexivity | reflexivity].
Qed.

Lemma netloc_of_without_brackets (u : string) :
  without "[" u -> without "]" u ->
  exists netloc, Urllib.netloc_of u = Return netloc.
Proof.
  intros Hopen Hclose.
  destruct (netloc_of_inv u) as [H | (url' & ->)]; [eauto|].
  unfold without in *. simpl in Hopen, Hclose.
  unfold Urllib.netloc_of.
  rewrite (contains_without "[" _ (all_splitnetloc _ url' Hopen)).
  rewrite (contains_without "]" _ (all_splitnetloc _ url' Hclose)).
  simpl. eauto.
Qed.

Lemma plain_host_without (h : string) (c : ascii) :
  plain_host_char c = false ->
  Str.all plain_host_char h = true -> without c h.
Proof.
  intros Hc. apply all_weaken. intros x Hx.
  destruct (Ascii.eqb_spec x c) as [->|]; [congruence | reflexivity].
Qed.

Lemma plain_host_no_delim (h : string) :
  Str.all plain_host_char h = true ->
  Str.all (fun c => negb (Urllib.is_netloc_delim c)) h = true.
Proof.
  apply all_weaken. intros c. unfold plain_host_char.
  rewrite !andb_true_iff. tauto.
Qed.

Lemma netloc_of_plain_host (h rest : string) :
  Str.all plain_host_char h = true ->
  rest = EmptyString \/
    (exists c rest', rest = String c rest' /\ Urllib.is_netloc_delim c = true) ->
  Urllib.netloc_of (String "/" (String "/" (h +:+ rest))) = Return h.
Proof.
  intros Hh Hrest. unfold Urllib.netloc_of.
  rewrite (splitnetloc_host h rest (plain_host_no_delim h Hh) Hrest). simpl.
  rewrite (contains_without "[" h), (contains_without "]" h);
    [reflexivity | |]; now apply plain_host_without.
Qed.

Lemma hostname_of_plain_host (h : string) :
  Str.is_empty h = false ->
  Str.all plain_host_char h = true ->
  Urllib.hostname_of_netloc h = Some (Str.lower h).
Proof.
  intros Hne Hh. unfold Urllib.hostname_of_netloc, Urllib._hostinfo_hostname.
  rewrite (rpartition_without "@" h), (partition_without "[" h),
          (partition_without ":" h), Hne, (partition_without "%" h);
    try (now apply plain_host_without).
  simpl. now rewrite append_empty_r.
Qed.

Lemma lower_is_empty (s : string) : Str.is_empty (Str.lower s) = Str.is_empty s.
Proof. now destruct s. Qed.

Lemma host_name_char_plain (c : ascii) :
  host_name_char c = true -> plain_host_char c = true.
Proof.
  destruct c as [[] [] [] [] [] [] [] []]; vm_compute; congruence.
Qed.

(** X3. A host written as a URL is reduced to its host in lower case: for a
    non-empty host name [h] made of letters, digits, [-] and [.], followed
    by nothing or by a path, query or fragment, both [https://h...] and
    [http://h...] are normalised to [h.lower()]. *)
Theorem parse_host_strips_scheme_and_path (h rest : string) :
  Str.is_empty h = false ->
  Str.all host_name_char h = true ->
  rest = EmptyString \/
    (exists c rest', rest = String c rest' /\ Urllib.is_netloc_delim c = true) ->
  DatabricksHook._parse_host ("https://" +:+ h +:+ rest) = Return (Str.lower h)
  /\ DatabricksHook._parse_host ("http://" +:+ h +:+ rest) = Return (Str.lower h).
Proof.
  intros Hne Hname Hrest.
  pose proof (all_weaken _ _ h host_name_char_plain Hname) as Hh.
  pose proof (netloc_of_plain_host h rest Hh Hrest) as Hnet.
  pose proof (hostname_of_plain_host h Hne Hh) as Hhost.
  assert (Hs : Str.partition ":" ("https://" +:+ h +:+ rest)
               = ("https", true, String "/" (String "/" (h +:+ rest))))
    by reflexivity.
  assert (Hp : Str.partition ":" ("http://" +:+ h +:+ rest)
               = ("http", true, String "/" (String "/" (h +:+ rest))))
    by reflexivity.
  unfold DatabricksHook._parse_host, Urllib.urlparse_hostname, Urllib.urlsplit_netloc.
  rewrite Hs, Hp.
  change (String.eqb "https" "http") with false.
  change (String.eqb "http" "http") with true.
  change (Str.all Urllib.is_scheme_char "https") with true.
  cbn [andb negb orb Str.is_empty Str.all Urllib.is_digit].
  change (Urllib.is_digit "/") with false.
  cbn [andb negb orb].
  rewrite Hnet. simpl. rewrite Hhost, lower_is_empty, Hne. auto.
Qed.

Lemma parse_host_strips_scheme_and_path_witness :
  DatabricksHook._parse_host "https://Adb-42.Azuredatabricks.NET/?o=42#job"
  = Return "adb-42.azuredatabricks.net".
Proof.
  refine (proj1 (parse_host_strips_scheme_and_path "Adb-42.Azuredatabricks.NET"
                   "/?o=42#job" _ _ _)); [reflexivity | reflexivity |].
  right. eexists _, _. split; reflexivity.
Defined.

(** X4. A host without a slash (a bare host name, with or without a port) is
    returned verbatim, and never raises. *)
Theorem parse_host_bare (h : string) :
  slash_free h -> DatabricksHook._parse_host h = Return h.
Proof.
  intros H. unfold DatabricksHook._parse_host.
  now rewrite (urlparse_hostname_no_slash h H).
Qed.

Lemma parse_host_bare_witness :
  DatabricksHook._parse_host "Adb-42.Azuredatabricks.NET:443"
  = Return "Adb-42.Azuredatabricks.NET:443".
Proof. apply parse_host_bare. reflexivity. Defined.

(** X5. On ASCII text [_parse_host] fails only on square brackets: an ASCII
    host that holds neither [[] nor []] is always normalised to a value. *)
Theorem parse_host_without_brackets (h : string) :
  Str.all Urllib.is_ascii h = true ->
  Str.contains "[" h = false ->
  Str.contains "]" h = false ->
  exists h', DatabricksHook._parse_host h = Return h'.
Proof.
  intros _ Hopen Hclose.
  apply without_contains in Hopen, Hclose.
  assert (Hnet : exists netloc, Urllib.urlsplit_netloc h = Return netloc).
  { unfold Urllib.urlsplit_netloc.
    pose proof (all_partition _ ":" h Hopen) as [_ Hopen'].
    pose proof (all_partition _ ":" h Hclose) as [_ Hclose'].
    destruct (Str.partition ":" h) as [[head found] rest]. simpl in *.
    repeat match goal with
           | |- context [if ?b then _ else _] => destruct b
           end; now apply netloc_of_without_brackets. }
  destruct Hnet as (netloc & Hnet).
  unfold DatabricksHook._parse_host, Urllib.urlparse_hostname. rewrite Hnet. simpl.
  destruct (Urllib.hostname_of_netloc netloc) as [x|]; [destruct (Str.is_empty x)|];
    eauto.
Qed.

Lemma parse_host_without_brackets_witness :
  exists h', DatabricksHook._parse_host "https://user:pw@Host:8443/a?b#c" = Return h'.
Proof. apply parse_host_without_brackets; reflexivity. Defined.

(** X6. Whatever [_parse_host] returns is either its input, untouched, or a
    non-empty text without any slash: a scheme and a path never survive
    together with an extracted host. *)
Theorem parse_host_result_shape (h h' : string) :
  DatabricksHook._parse_host h = Return h' ->
  h' = h \/ (slash_free h' /\ Str.is_empty h' = false).
Proof.
  unfold DatabricksHook._parse_host.
  destruct (Urllib.urlparse_hostname h) as [[x|]|e] eqn:E; simpl;
    [| intros [= <-]; now left | discriminate].
  rewrite (urlparse_hostname_nonempty h x E). intros [= <-]. right.
  split; [eapply urlparse_hostname_slash_free, E | eapply urlparse_hostname_nonempty, E].
Qed.

Lemma parse_host_result_shape_witness :
  "fe80::1%Eth0" = "http://user@[FE80::1%Eth0]:80/x"
  \/ (slash_free "fe80::1%Eth0" /\ Str.is_empty "fe80::1%Eth0" = false).
Proof.
  apply (parse_host_result_shape "http://user@[FE80::1%Eth0]:80/x"). reflexivity.
Defined.

(** ** Before the first request *)

(** What [_do_api_call] has done when it enters its loop, in one equation:
    the double normalisation of an extra [host] collapses to a single one. *)
Lemma prepare_spec (env : Env) (self : DatabricksHook.t) (method endpoint : string)
    (json : JSON) (w0 : World) (conn : Connection) :
  get_connection env (DatabricksHook.databricks_conn_id self) = Return conn ->
  DatabricksHook.prepare env self (method, endpoint) json w0
  = (match url_host conn with
     | Raise e => Raise e
     | Return h =>
         match request_func_of method with
         | None => Raise (AirflowException ("Unexpected HTTP Method: " +:+ method))
         | Some func =>
             Return {| request_func := func;
                       url := "https://" +:+ h +:+ "/" +:+ endpoint;
                       json_arg := match func with
                                   | requests_get => None
                                   | _ => Some json
                                   end;
                       params := match func with
                                 | requests_get => Some json
                                 | _ => None
                                 end;
                       auth := match extra_dejson conn !! "token" with
                               | Some token => TokenAuth (_TokenAuth.__init__ token)
                               | None => BasicAuth (login conn) (password conn)
                               end;
                       headers := USER_AGENT_HEADER env;
                       timeout := DatabricksHook.timeout_seconds self |}
         end
     end, resolved w0 conn).
Proof.
  intros Hconn. unfold DatabricksHook.prepare, url_host, resolved, request_func_of.
  rewrite Hconn.
  assert (Hfunc : forall (a : Auth) (h : string),
    ((if String.eqb method "GET" then Return requests_get
      else if String.eqb method "POST" then Return requests_post
      else if String.eqb method "PATCH" then Return requests_patch
      else Raise (AirflowException ("Unexpected HTTP Method: " +:+ method))) ≫=
     (λ func : RequestFunc,
        mret {| request_func := func;
                url := "https://" +:+ h +:+ "/" +:+ endpoint;
                json_arg := if String.eqb method "POST" || String.eqb method "PATCH"
                            then Some json else None;
                params := if String.eqb method "GET" then Some json else None;
                auth := a;
                headers := USER_AGENT_HEADER env;
                timeout := DatabricksHook.timeout_seconds self |}))
    = match (if String.eqb method "GET" then Some requests_get
             else if String.eqb method "POST" then Some requests_post
             else if String.eqb method "PATCH" then Some requests_patch
             else None) with
      | None => Raise (AirflowException ("Unexpected HTTP Method: " +:+ method))
      | Some func =>
          Return {| request_func := func;
                    url := "https://" +:+ h +:+ "/" +:+ endpoint;
                    json_arg := match func with
                                | requests_get => None
                                | _ => Some json
                                end;
                    params := match func with
                              | requests_get => Some json
                              | _ => None
                              end;
                    auth := a;
                    headers := USER_AGENT_HEADER env;
                    timeout := DatabricksHook.timeout_seconds self |}
      end).
  { intros a h.
    destruct (String.eqb_spec method "GET") as [->|_]; [reflexivity|].
    destruct (String.eqb_spec method "POST") as [->|_]; [reflexivity|].
    destruct (String.eqb_spec method "PATCH") as [->|_]; reflexivity. }
  destruct (extra_dejson conn !! "token") as [token|].
  - destruct (extra_dejson conn !! "host") as [extra_host|].
    + f_equal.
      destruct (DatabricksHook._parse_host extra_host) as [h|e] eqn:E; [|reflexivity].
      simpl. rewrite (parse_host_fixed extra_host h E). simpl. apply Hfunc.
    + f_equal. simpl.
      destruct (DatabricksHook._parse_host (host conn)) as [h|e]; [|reflexivity].
      simpl. apply Hfunc.
  - f_equal. simpl.
    destruct (DatabricksHook._parse_host (host conn)) as [h|e]; [|reflexivity].
    simpl. apply Hfunc.
Qed.

Section Loop.

Variables (env : Env) (self : DatabricksHook.t) (req : Request).

Local Abbreviation loop := (DatabricksHook.retry_loop env self req).

Lemma retry_loop_unfold (fuel : nat) (a : Z) (w : World) :
  loop (S fuel) a w
  = match DatabricksHook.attempt (transport env (length (sent w)) req) with
    | DatabricksHook.Returned body => Some (Return body, send w req)
    | DatabricksHook.Uncaught e => Some (Raise e, send w req)
    | DatabricksHook.Caught e =>
        if negb (_retryable_error e) then
          match DatabricksHook.fatal_message e with
          | Return msg => Some (Raise (AirflowException msg), send w req)
          | Raise err => Some (Raise err, send w req)
          end
        else if a =? DatabricksHook.retry_limit self then
          Some (Raise (AirflowException (DatabricksHook.giving_up_message self)),
                log (send w req) (LogError a e))
        else if nonnegative (DatabricksHook.retry_delay self) then
          loop fuel (a + 1)
            (sleep (log (send w req) (LogError a e))
               (DatabricksHook.retry_delay self))
        else
          Some (Raise (ValueError "sleep length must be non-negative"),
                log (send w req) (LogError a e))
    end.
Proof.
  simpl. unfold time_sleep.
  destruct (DatabricksHook.attempt _); try reflexivity.
  destruct (negb (_retryable_error e)); [reflexivity|].
  destruct (a =? DatabricksHook.retry_limit self); [reflexivity|].
  now destruct (nonnegative (DatabricksHook.retry_delay self)).
Qed.

(** More fuel never changes a result. *)
Lemma retry_loop_more_fuel (fuel : nat) :
  forall (a : Z) (w : World) (r : Res JSON * World),
    loop fuel a w = Some r -> loop (S fuel) a w = Some r.
Proof.
  induction fuel as [|fuel IH]; intros a w r H; [discriminate|].
  rewrite retry_loop_unfold in H. rewrite retry_loop_unfold.
  destruct (DatabricksHook.attempt _) as [body|e|e]; try exact H.
  destruct (negb (_retryable_error e)); [exact H|].
  destruct (a =? DatabricksHook.retry_limit self); [exact H|].
  destruct (nonnegative (DatabricksHook.retry_delay self)); [|exact H].
  apply IH, H.
Qed.

Lemma retry_loop_fuel_mono (fuel fuel' : nat) (a : Z) (w : World)
    (r : Res JSON * World) :
  (fuel <= fuel')%nat -> loop fuel a w = Some r -> loop fuel' a w = Some r.
Proof.
  intros Hle H. induction Hle as [|fuel' _ IH]; [exact H|].
  apply retry_loop_more_fuel, IH.
Qed.

(** Whenever the loop ends, it has sent its one request a positive number
    of times, and a value it returns is the decoded body of the response to
    the last of them. *)
Lemma retry_loop_sends (fuel : nat) :
  forall (a : Z) (w w' : World) (res : Res JSON),
    loop fuel a w = Some (res, w') ->
    exists k : nat, (1 <= k)%nat /\ sent w' = sent w ++ replicate k req.
Proof.
  induction fuel as [|fuel IH]; intros a w w' res H; [discriminate|].
  rewrite retry_loop_unfold in H.
  assert (Hone : sent (send w req) = sent w ++ replicate 1 req) by reflexivity.
  destruct (DatabricksHook.attempt _) as [body|e|e];
    try (injection H as _ <-; exists 1%nat; split; [lia | exact Hone]).
  destruct (negb (_retryable_error e)).
  { destruct (DatabricksHook.fatal_message e);
      (injection H as _ <-; exists 1%nat; split; [lia | exact Hone]). }
  destruct (a =? DatabricksHook.retry_limit self).
  { injection H as _ <-; exists 1%nat; split; [lia | exact Hone]. }
  destruct (nonnegative (DatabricksHook.retry_delay self));
    [|injection H as _ <-; exists 1%nat; split; [lia | exact Hone]].
  destruct (IH _ _ _ _ H) as (k & Hk & Hsent).
  exists (S k). split; [lia|]. rewrite Hsent.
  exact (replicate_snoc_app (sent w) req k).
Qed.

(** With a limit below 1 the attempt counter, which starts at 1 and only
    grows, never meets it: under persistent retryable failures the loop
    outlasts every bound. *)
Lemma retry_loop_unbounded (fuel : nat) :
  nonnegative (DatabricksHook.retry_delay self) = true ->
  forall (a : Z) (w : World),
    DatabricksHook.retry_limit self < a ->
    always_failing env req (length (sent w)) ->
    loop fuel a w = None.
Proof.
  intros Hdelay.
  induction fuel as [|fuel IH]; intros a w Ha Hall; [reflexivity|].
  destruct (Hall (length (sent w)) (le_n _)) as (e & E & R).
  rewrite (retry_loop_again env self req fuel a w e E R); [|lia|exact Hdelay].
  apply IH; [lia|].
  intros j Hj. apply Hall. simpl in Hj. rewrite length_app in Hj. lia.
Qed.

End Loop.

(** The requests a call adds to the world are copies of the one request it
    built before its loop. *)
Lemma do_api_call_sends (env : Env) (self : DatabricksHook.t)
    (endpoint_info : string * string) (json : JSON) (fuel : nat)
    (w0 w' : World) (res : Res JSON) :
  DatabricksHook._do_api_call env self endpoint_info json fuel w0 = Some (res, w') ->
  (raises res /\ sent w' = sent w0 /\ slept w' = slept w0) \/
  (exists (req : Request) (w : World) (k : nat),
     DatabricksHook.prepare env self endpoint_info json w0 = (Return req, w) /\
     (1 <= k)%nat /\ sent w' = sent w0 ++ replicate k req).
Proof.
  unfold DatabricksHook._do_api_call.
  destruct (DatabricksHook.prepare env self endpoint_info json w0) as [[req|e] w] eqn:P;
    destruct (prepare_quiet _ _ _ _ _ _ _ P) as [Hsent Hslept].
  - intros H. right. destruct (retry_loop_sends _ _ _ _ _ _ _ _ H) as (k & Hk & Hs).
    exists req, w, k. rewrite <- Hsent. auto.
  - intros [= <- <-]. left. repeat split; assumption.
Qed.

Lemma elem_of_sent_since (w0 w' : World) (req r : Request) (k : nat) :
  sent w' = sent w0 ++ replicate k req ->
  r ∈ drop (length (sent w0)) (sent w') -> r = req.
Proof.
  intros ->. rewrite drop_app_length. intros H.
  now apply elem_of_replicate in H as [-> _].
Qed.

(** X7. A method other than GET, POST and PATCH is refused with an
    [AirflowException] naming it, once the connection is resolved and its
    host normalised but before anything is sent; no amount of retrying is
    involved. *)
Theorem unsupported_method_sends_nothing (env : Env) (self : DatabricksHook.t)
    (method endpoint : string) (json : JSON) (w0 : World) (conn : Connection)
    (h : string) (fuel : nat) :
  get_connection env (DatabricksHook.databricks_conn_id self) = Return conn ->
  url_host conn = Return h ->
  method <> "GET" -> method <> "POST" -> method <> "PATCH" ->
  exists w' : World,
    DatabricksHook._do_api_call env self (method, endpoint) json fuel w0
    = Some (Raise (AirflowException ("Unexpected HTTP Method: " +:+ method)), w') /\
    sent w' = sent w0 /\ slept w' = slept w0.
Proof.
  intros Hconn Hhost Hget Hpost Hpatch.
  unfold DatabricksHook._do_api_call.
  rewrite (prepare_spec _ _ _ _ _ _ _ Hconn), Hhost.
  unfold request_func_of.
  apply String.eqb_neq in Hget, Hpost, Hpatch. rewrite Hget, Hpost, Hpatch.
  eexists. split; [reflexivity|]. split; reflexivity.
Qed.

Lemma unsupported_method_sends_nothing_witness :
  exists w' : World,
    DatabricksHook._do_api_call
      (Sample.env Sample.basic_connection (Sample.scripted [] (Responds Sample.ok)))
      (Sample.hook 3) ("DELETE", "api/2.0/jobs/delete") Sample.payload 0 Sample.fresh
    = Some (Raise (AirflowException "Unexpected HTTP Method: DELETE"), w') /\
    sent w' = [] /\ slept w' = [].
Proof.
  refine (unsupported_method_sends_nothing
            (Sample.env Sample.basic_connection (Sample.scripted [] (Responds Sample.ok)))
            (Sample.hook 3) "DELETE" "api/2.0/jobs/delete" Sample.payload Sample.fresh
            Sample.basic_connection "xx.cloud.databricks.com" 0 _ _ _ _ _);
    solve [reflexivity | discriminate].
Defined.

(** X8. Every request a call sends goes to
    [https://<host>/<endpoint>], where the host is the connection's host
    normalised once: under token authentication with a [host] among the extra
    fields it is that host (the [host] field of the connection is then
    ignored), otherwise the [host] field. Each request carries exactly the
    [user-agent] header and the hook's timeout. *)
Theorem request_url (env : Env) (self : DatabricksHook.t)
    (method endpoint : string) (json : JSON) (fuel : nat) (w0 w' : World)
    (conn : Connection) (res : Res JSON) (r : Request) :
  get_connection env (DatabricksHook.databricks_conn_id self) = Return conn ->
  DatabricksHook._do_api_call env self (method, endpoint) json fuel w0 = Some (res, w') ->
  r ∈ drop (length (sent w0)) (sent w') ->
  exists h : string,
    url_host conn = Return h /\
    url r = "https://" +:+ h +:+ "/" +:+ endpoint /\
    headers r = {[ "user-agent" := "airflow-" +:+ __version__ env ]} /\
    timeout r = DatabricksHook.timeout_seconds self.
Proof.
  intros Hconn Hrun Hin.
  destruct (do_api_call_sends _ _ _ _ _ _ _ _ Hrun)
    as [(_ & Hsent & _) | (req & w & k & Hprep & _ & Hsent)].
  - rewrite Hsent, drop_all in Hin. now apply elem_of_nil in Hin.
  - apply (elem_of_sent_since _ _ _ _ _ Hsent) in Hin. subst r.
    rewrite (prepare_spec _ _ _ _ _ _ _ Hconn) in Hprep.
    destruct (url_host conn) as [h|e]; [|discriminate].
    exists h. split; [reflexivity|].
    destruct (request_func_of method); [|discriminate].
    injection Hprep as <- _. repeat split.
Qed.

Lemma request_url_witness :
  exists h : string,
    url_host Sample.override_connection = Return h /\
    url Sample.override_request = "https://" +:+ h +:+ "/" +:+ "api/2.0/jobs/runs/get" /\
    headers Sample.override_request = {[ "user-agent" := "airflow-2.0.0" ]} /\
    timeout Sample.override_request = 180.
Proof.
  refine (request_url
            (Sample.env Sample.override_connection
               (Sample.scripted [] (Responds Sample.ok)))
            (Sample.hook 3) "GET" "api/2.0/jobs/runs/get" Sample.payload 1 Sample.fresh
            _ Sample.override_connection (Return Sample.run_id_body)
            Sample.override_request eq_refl eq_refl _).
  simpl. apply list_elem_of_here.
Defined.

Lemma prepare_connected (env : Env) (self : DatabricksHook.t)
    (endpoint_info : string * string) (json : JSON) (w0 w : World) (req : Request) :
  DatabricksHook.prepare env self endpoint_info json w0 = (Return req, w) ->
  exists conn,
    get_connection env (DatabricksHook.databricks_conn_id self) = Return conn.
Proof.
  unfold DatabricksHook.prepare. destruct endpoint_info as [method endpoint].
  destruct (get_connection env _) as [conn|e]; [eauto | discriminate].
Qed.

(** X9. The payload travels in one place only, chosen by the method: a GET
    sends it as query parameters and no body; a POST or a PATCH sends it as
    the JSON body and no query parameters. *)
Theorem request_payload (env : Env) (self : DatabricksHook.t)
    (method endpoint : string) (json : JSON) (fuel : nat) (w0 w' : World)
    (res : Res JSON) (r : Request) :
  DatabricksHook._do_api_call env self (method, endpoint) json fuel w0 = Some (res, w') ->
  r ∈ drop (length (sent w0)) (sent w') ->
  (method = "GET" /\ request_func r = requests_get /\
   params r = Some json /\ json_arg r = None)
  \/ (method = "POST" /\ request_func r = requests_post /\
      json_arg r = Some json /\ params r = None)
  \/ (method = "PATCH" /\ request_func r = requests_patch /\
      json_arg r = Some json /\ params r = None).
Proof.
  intros Hrun Hin.
  destruct (do_api_call_sends _ _ _ _ _ _ _ _ Hrun)
    as [(_ & Hsent & _) | (req & w & k & Hprep & _ & Hsent)].
  - rewrite Hsent, drop_all in Hin. now apply elem_of_nil in Hin.
  - apply (elem_of_sent_since _ _ _ _ _ Hsent) in Hin. subst r.
    destruct (prepare_connected _ _ _ _ _ _ _ Hprep) as (conn & Hconn).
    rewrite (prepare_spec _ _ _ _ _ _ _ Hconn) in Hprep.
    destruct (url_host conn) as [h|e]; [|discriminate].
    unfold request_func_of in Hprep.
    destruct (String.eqb_spec method "GET") as [->|_];
      [injection Hprep as <- _; left; repeat split|].
    destruct (String.eqb_spec method "POST") as [->|_];
      [injection Hprep as <- _; right; left; repeat split|].
    destruct (String.eqb_spec method "PATCH") as [->|_];
      [injection Hprep as <- _; right; right; repeat split | discriminate].
Qed.

Lemma request_payload_witness :
  ("GET" = "GET" /\ request_func Sample.override_request = requests_get /\
   params Sample.override_request = Some Sample.payload /\
   json_arg Sample.override_request = None)
  \/ ("GET" = "POST" /\ request_func Sample.override_request = requests_post /\
      json_arg Sample.override_request = Some Sample.payload /\
      params Sample.override_request = None)
  \/ ("GET" = "PATCH" /\ request_func Sample.override_request = requests_patch /\
      json_arg Sample.override_request = Some Sample.payload /\
      params Sample.override_request = None).
Proof.
  refine (request_payload
            (Sample.env Sample.override_connection
               (Sample.scripted [] (Responds Sample.ok)))
            (Sample.hook 3) "GET" "api/2.0/jobs/runs/get" Sample.payload 1 Sample.fresh
            _ (Return Sample.run_id_body) Sample.override_request eq_refl _).
  simpl. apply list_elem_of_here.
Defined.

(** ** Retrying *)

(** X10. A hook with [retry_limit >= 1] always finishes a call, whatever
    the connection store and the network do: it sends at most [retry_limit]
    requests, sleeps exactly once between two consecutive requests and
    always for [retry_delay], and returns a value only after at least one
    request. The result does not depend on how far the loop is allowed to
    run beyond [retry_limit] iterations. *)
Theorem bounded_retries (env : Env) (self : DatabricksHook.t)
    (endpoint_info : string * string) (json : JSON) (w0 : World) (fuel : nat) :
  1 <= DatabricksHook.retry_limit self ->
  (Z.to_nat (DatabricksHook.retry_limit self) <= fuel)%nat ->
  exists (res : Res JSON) (w' : World) (k : nat),
    DatabricksHook._do_api_call env self endpoint_info json fuel w0 = Some (res, w') /\
    (k <= Z.to_nat (DatabricksHook.retry_limit self))%nat /\
    length (sent w') = (length (sent w0) + k)%nat /\
    slept w' = slept w0 ++ replicate (k - 1) (DatabricksHook.retry_delay self) /\
    (k = 0%nat -> raises res) /\
    (forall fuel' : nat, (fuel <= fuel')%nat ->
       DatabricksHook._do_api_call env self endpoint_info json fuel' w0 = Some (res, w')).
Proof.
  intros Hlimit Hfuel. unfold DatabricksHook._do_api_call.
  destruct (DatabricksHook.prepare env self endpoint_info json w0) as [[req|e] w] eqn:P;
    destruct (prepare_quiet _ _ _ _ _ _ _ P) as [Hsent Hslept].
  - destruct (retry_loop_bounded env self req
                (Z.to_nat (DatabricksHook.retry_limit self) - 1) fuel 1 w)
      as (res & w' & k & Hrun & Hk & Hs & Hz); [lia | lia |].
    exists res, w', k. split; [exact Hrun|]. split; [lia|].
    split; [rewrite Hs, length_app, length_replicate, Hsent; reflexivity|].
    split; [now rewrite Hz, Hslept|]. split; [lia|].
    intros fuel' Hle. eapply retry_loop_fuel_mono; eassumption.
  - exists (Raise e), w, 0%nat. split; [reflexivity|]. split; [lia|].
    split; [rewrite Hsent; lia|]. split; [simpl; now rewrite app_nil_r|].
    split; [intros _; exact I | reflexivity].
Qed.

Lemma bounded_retries_witness :
  exists (res : Res JSON) (w' : World) (k : nat),
    DatabricksHook._do_api_call
      (Sample.env Sample.basic_connection
         (Sample.scripted [Fails Sample.connect_timeout] (Responds Sample.server_error)))
      (Sample.hook 3) RUN_NOW_ENDPOINT Sample.payload 3 Sample.fresh
    = Some (res, w') /\
    (k <= 3)%nat /\
    length (sent w') = k.
Proof.
  destruct (bounded_retries
              (Sample.env Sample.basic_connection
                 (Sample.scripted [Fails Sample.connect_timeout]
                    (Responds Sample.server_error)))
              (Sample.hook 3) RUN_NOW_ENDPOINT Sample.payload Sample.fresh 3)
    as (res & w' & k & Hrun & Hk & Hsent & _); [simpl; lia | simpl; lia |].
  exists res, w', k. auto.
Defined.

(** X11. A connection error or a timeout is retried even though it carries
    no response: when the first attempt fails that way and the second is
    answered with a decodable 2xx response, a hook with [retry_limit >= 2]
    and a delay that [time.sleep] accepts ([retry_delay >= 0]) returns the
    decoded body after two requests, one sleep of [retry_delay] and one
    logged error for attempt 1. *)
Theorem connection_error_retried (env : Env) (self : DatabricksHook.t)
    (endpoint_info : string * string) (json : JSON) (w0 w : World)
    (req : Request) (e : RequestException) (r : Response) (body : JSON) (fuel : nat) :
  2 <= DatabricksHook.retry_limit self ->
  nonnegative (DatabricksHook.retry_delay self) = true ->
  DatabricksHook.prepare env self endpoint_info json w0 = (Return req, w) ->
  transport env (length (sent w0)) req = Fails e ->
  is_connection_error_or_timeout (exc_class e) = true ->
  transport env (S (length (sent w0))) req = Responds r ->
  200 <= status_code r < 300 ->
  json_result r = Return body ->
  (2 <= fuel)%nat ->
  exists w' : World,
    DatabricksHook._do_api_call env self endpoint_info json fuel w0
    = Some (Return body, w') /\
    sent w' = sent w0 ++ [req; req] /\
    slept w' = slept w0 ++ [DatabricksHook.retry_delay self] /\
    logged w' = logged w ++ [LogError 1 e].
Proof.
  intros Hlimit Hdelay Hprep H1 Hcls H2 Hstatus Hjson Hfuel.
  destruct (prepare_quiet _ _ _ _ _ _ _ Hprep) as [Hsent Hslept].
  unfold DatabricksHook._do_api_call. rewrite Hprep.
  destruct fuel as [|[|fuel]]; try lia.
  erewrite retry_loop_again;
    [| rewrite Hsent, H1; reflexivity
     | unfold _retryable_error; rewrite Hcls; reflexivity
     | lia
     | exact Hdelay].
  erewrite retry_loop_returned;
    [| simpl sent; rewrite length_app, Hsent; simpl length;
       replace (length (sent w0) + 1)%nat with (S (length (sent w0))) by lia;
       rewrite H2; apply attempt_success; [exact Hstatus | exact Hjson]].
  eexists. split; [reflexivity|]. simpl. rewrite Hsent, Hslept, <- !app_assoc.
  repeat split.
Qed.

Lemma connection_error_retried_witness :
  exists w' : World,
    DatabricksHook._do_api_call
      (Sample.env Sample.basic_connection
         (Sample.scripted [Fails Sample.connect_timeout] (Responds Sample.ok)))
      (Sample.hook 2) RUN_NOW_ENDPOINT Sample.payload 2 Sample.fresh
    = Some (Return Sample.run_id_body, w') /\
    length (sent w') = 2%nat /\
    slept w' = [QArith_base.Qmake 1 1].
Proof.
  destruct (connection_error_retried
              (Sample.env Sample.basic_connection
                 (Sample.scripted [Fails Sample.connect_timeout] (Responds Sample.ok)))
              (Sample.hook 2) RUN_NOW_ENDPOINT Sample.payload Sample.fresh
              (resolved Sample.fresh Sample.basic_connection)
              (Sample.request Sample.basic_connection requests_post
                 "api/2.0/jobs/run-now" (BasicAuth (Some "user") (Some "secret")))
              Sample.connect_timeout Sample.ok Sample.run_id_body 2)
    as (w' & Hrun & Hsent & Hslept & _);
    try solve [reflexivity | simpl; lia].
  exists w'. rewrite Hsent, Hslept. auto.
Defined.

(** X12. Every 4xx response is fatal, not only 404: the call ends after that
    one request with an [AirflowException] whose message shows the body as
    Python prints a [bytes] object and the status code in decimal; nothing
    is slept and no retry is logged. *)
Theorem client_error_is_fatal (env : Env) (self : DatabricksHook.t)
    (endpoint_info : string * string) (json : JSON) (w0 w : World)
    (req : Request) (r : Response) (fuel : nat) :
  DatabricksHook.prepare env self endpoint_info json w0 = (Return req, w) ->
  transport env (length (sent w0)) req = Responds r ->
  400 <= status_code r < 500 ->
  (1 <= fuel)%nat ->
  DatabricksHook._do_api_call env self endpoint_info json fuel w0
  = Some (Raise (AirflowException
                   ("Response: " +:+ Bytes.repr (content r) +:+
                    ", Status Code: " +:+ pretty (status_code r))), send w req) /\
  sent (send w req) = sent w0 ++ [req] /\
  slept (send w req) = slept w0 /\
  logged (send w req) = logged w.
Proof.
  intros Hprep Hnet Hstatus Hfuel.
  destruct (prepare_quiet _ _ _ _ _ _ _ Hprep) as [Hsent Hslept].
  split.
  - unfold DatabricksHook._do_api_call. rewrite Hprep.
    destruct fuel as [|fuel]; [lia|].
    rewrite (retry_loop_fatal env self req fuel 1 w
               {| exc_class := HTTPError; response := Some r |}).
    + reflexivity.
    + rewrite Hsent, Hnet. apply attempt_http_error. lia.
    + rewrite http_error_retryable. apply Z.leb_gt. lia.
  - simpl. now rewrite Hsent, Hslept.
Qed.

Lemma client_error_is_fatal_witness :
  DatabricksHook._do_api_call
    (Sample.env Sample.token_connection
       (Sample.scripted [Responds Sample.forbidden] (Responds Sample.ok)))
    (Sample.hook 3) GET_RUN_ENDPOINT Sample.payload 3 Sample.fresh
  = Some (Raise (AirflowException
                   "Response: b'Invalid access token', Status Code: 403"),
          send (resolved Sample.fresh Sample.token_connection)
            (Sample.request Sample.token_connection requests_get
               "api/2.0/jobs/runs/get" (TokenAuth (_TokenAuth.mk "dapi-0123")))).
Proof.
  refine (proj1 (client_error_is_fatal
                   (Sample.env Sample.token_connection
                      (Sample.scripted [Responds Sample.forbidden] (Responds Sample.ok)))
                   (Sample.hook 3) GET_RUN_ENDPOINT Sample.payload Sample.fresh
                   (resolved Sample.fresh Sample.token_connection)
                   (Sample.request Sample.token_connection requests_get
                      "api/2.0/jobs/runs/get" (TokenAuth (_TokenAuth.mk "dapi-0123")))
                   Sample.forbidden 3 _ _ _ _));
    solve [reflexivity | simpl; lia].
Defined.

Lemma attempt_accepted_status (r : Response) (body : JSON) :
  status_code r < 400 \/ 600 <= status_code r ->
  json_result r = Return body ->
  DatabricksHook.attempt (Responds r) = DatabricksHook.Returned body.
Proof.
  intros H Hjson. unfold DatabricksHook.attempt, raise_for_status.
  destruct H as [H | H].
  - assert (E : (400 <=? status_code r) = false) by (apply Z.leb_gt; lia).
    now rewrite E, Hjson.
  - assert (E : (status_code r <? 600) = false) by (apply Z.ltb_ge; lia).
    now rewrite E, andb_false_r, Hjson.
Qed.

(** X13. Success is any status that [raise_for_status] lets through, 2xx or
    not: on a response whose status is below 400 or at least 600 and whose
    body decodes, the call ends after that request and returns the decoded
    body, without sleeping. *)
Theorem accepted_status_decodes (env : Env) (self : DatabricksHook.t)
    (endpoint_info : string * string) (json : JSON) (w0 w : World)
    (req : Request) (r : Response) (body : JSON) (fuel : nat) :
  DatabricksHook.prepare env self endpoint_info json w0 = (Return req, w) ->
  transport env (length (sent w0)) req = Responds r ->
  status_code r < 400 \/ 600 <= status_code r ->
  json_result r = Return body ->
  (1 <= fuel)%nat ->
  DatabricksHook._do_api_call env self endpoint_info json fuel w0
  = Some (Return body, send w req) /\
  sent (send w req) = sent w0 ++ [req] /\
  slept (send w req) = slept w0.
Proof.
  intros Hprep Hnet Hstatus Hjson Hfuel.
  destruct (prepare_quiet _ _ _ _ _ _ _ Hprep) as [Hsent Hslept].
  split; [|simpl; now rewrite Hsent, Hslept].
  unfold DatabricksHook._do_api_call. rewrite Hprep.
  destruct fuel as [|fuel]; [lia|].
  apply retry_loop_returned. rewrite Hsent, Hnet.
  now apply attempt_accepted_status.
Qed.

Lemma accepted_status_decodes_witness :
  DatabricksHook._do_api_call
    (Sample.env Sample.basic_connection
       (Sample.scripted [Responds Sample.found] (Responds Sample.server_error)))
    (Sample.hook 3) CANCEL_RUN_ENDPOINT Sample.payload 3 Sample.fresh
  = Some (Return (JObject []),
          send (resolved Sample.fresh Sample.basic_connection)
            (Sample.request Sample.basic_connection requests_post
               "api/2.0/jobs/runs/cancel" (BasicAuth (Some "user") (Some "secret")))).
Proof.
  refine (proj1 (accepted_status_decodes
                   (Sample.env Sample.basic_connection
                      (Sample.scripted [Responds Sample.found]
                         (Responds Sample.server_error)))
                   (Sample.hook 3) CANCEL_RUN_ENDPOINT Sample.payload Sample.fresh
                   (resolved Sample.fresh Sample.basic_connection)
                   (Sample.request Sample.basic_connection requests_post
                      "api/2.0/jobs/runs/cancel" (BasicAuth (Some "user") (Some "secret")))
                   Sample.found (JObject []) 3 _ _ _ _ _));
    solve [reflexivity | simpl; lia].
Defined.

(** X14. The check in [__init__] is what ends the loop: on a hook object
    whose [retry_limit] is below 1, with a delay that [time.sleep] accepts
    ([retry_delay >= 0]), the attempt counter never equals the limit, so
    while every attempt fails with a retryable error the call keeps retrying
    and outlasts any bound on its iterations. *)
Theorem no_limit_no_end (env : Env) (self : DatabricksHook.t)
    (endpoint_info : string * string) (json : JSON) (w0 w : World)
    (req : Request) (fuel : nat) :
  DatabricksHook.retry_limit self < 1 ->
  nonnegative (DatabricksHook.retry_delay self) = true ->
  DatabricksHook.prepare env self endpoint_info json w0 = (Return req, w) ->
  always_failing env req (length (sent w0)) ->
  DatabricksHook._do_api_call env self endpoint_info json fuel w0 = None.
Proof.
  intros Hlimit Hdelay Hprep Hall.
  destruct (prepare_quiet _ _ _ _ _ _ _ Hprep) as [Hsent _].
  unfold DatabricksHook._do_api_call. rewrite Hprep.
  apply retry_loop_unbounded; [exact Hdelay | lia | now rewrite Hsent].
Qed.

Lemma no_limit_no_end_witness :
  DatabricksHook._do_api_call
    (Sample.env Sample.basic_connection
       (Sample.scripted [] (Responds Sample.server_error)))
    (Sample.hook 0) RUN_NOW_ENDPOINT Sample.payload 1000 Sample.fresh
  = None.
Proof.
  refine (no_limit_no_end
            (Sample.env Sample.basic_connection
               (Sample.scripted [] (Responds Sample.server_error)))
            (Sample.hook 0) RUN_NOW_ENDPOINT Sample.payload Sample.fresh
            (resolved Sample.fresh Sample.basic_connection)
            (Sample.request Sample.basic_connection requests_post
               "api/2.0/jobs/run-now" (BasicAuth (Some "user") (Some "secret")))
            1000 _ _ _ _); [simpl; lia | reflexivity | reflexivity |].
  intros j _. eexists. split.
  - unfold Sample.env, Sample.scripted. simpl transport.
    destruct j; apply attempt_http_error; simpl; lia.
  - reflexivity.
Defined.

(** ** The endpoint methods *)

Lemma first_attempt_success (env : Env) (self : DatabricksHook.t)
    (endpoint_info : string * string) (json : JSON) (w0 w : World)
    (req : Request) (r : Response) (body : JSON) (fuel : nat) :
  DatabricksHook.prepare env self endpoint_info json w0 = (Return req, w) ->
  transport env (length (sent w0)) req = Responds r ->
  200 <= status_code r < 300 ->
  json_result r = Return body ->
  (1 <= fuel)%nat ->
  DatabricksHook._do_api_call env self endpoint_info json fuel w0
  = Some (Return body, send w req).
Proof.
  intros Hprep Hnet Hstatus Hjson Hfuel.
  destruct (prepare_quiet _ _ _ _ _ _ _ Hprep) as [Hsent _].
  unfold DatabricksHook._do_api_call. rewrite Hprep.
  destruct fuel as [|fuel]; [lia|].
  apply retry_loop_returned. rewrite Hsent, Hnet.
  now apply attempt_success.
Qed.

Lemma prepare_post (env : Env) (self : DatabricksHook.t) (endpoint : string)
    (json : JSON) (w0 w : World) (req : Request) :
  DatabricksHook.prepare env self ("POST", endpoint) json w0 = (Return req, w) ->
  request_func req = requests_post /\ json_arg req = Some json /\ params req = None.
Proof.
  intros Hprep.
  destruct (prepare_connected _ _ _ _ _ _ _ Hprep) as (conn & Hconn).
  rewrite (prepare_spec _ _ _ _ _ _ _ Hconn) in Hprep.
  destruct (url_host conn); [|discriminate].
  injection Hprep as <- _. repeat split.
Qed.

Lemma prepare_get (env : Env) (self : DatabricksHook.t) (endpoint : string)
    (json : JSON) (w0 w : World) (req : Request) :
  DatabricksHook.prepare env self ("GET", endpoint) json w0 = (Return req, w) ->
  request_func req = requests_get /\ params req = Some json /\ json_arg req = None.
Proof.
  intros Hprep.
  destruct (prepare_connected _ _ _ _ _ _ _ Hprep) as (conn & Hconn).
  rewrite (prepare_spec _ _ _ _ _ _ _ Hconn) in Hprep.
  destruct (url_host conn); [|discriminate].
  injection Hprep as <- _. repeat split.
Qed.

(** X15. [submit_run] posts the run specification as the JSON body and, on
    a decodable 2xx answer to its first attempt, returns the [run_id] member
    of the answer. When the answer is an object without [run_id] it raises
    [KeyError], and when it is not an object at all [TypeError], in both
    cases after the request has been sent. *)
Theorem submit_run_result (env : Env) (self : DatabricksHook.t) (json : JSON)
    (w0 w : World) (req : Request) (r : Response) (body : JSON) (fuel : nat) :
  DatabricksHook.prepare env self SUBMIT_RUN_ENDPOINT json w0 = (Return req, w) ->
  transport env (length (sent w0)) req = Responds r ->
  200 <= status_code r < 300 ->
  json_result r = Return body ->
  (1 <= fuel)%nat ->
  request_func req = requests_post /\ json_arg req = Some json /\
  sent (send w req) = sent w0 ++ [req] /\
  match body with
  | JObject members =>
      match Json.lookup "run_id" members with
      | Some run_id =>
          DatabricksHook.submit_run env self json fuel w0
          = Some (Return run_id, send w req)
      | None =>
          DatabricksHook.submit_run env self json fuel w0
          = Some (Raise (Foreign "KeyError" "'run_id'"), send w req)
      end
  | _ =>
      exists msg,
        DatabricksHook.submit_run env self json fuel w0
        = Some (Raise (Foreign "TypeError" msg), send w req)
  end.
Proof.
  intros Hprep Hnet Hstatus Hjson Hfuel.
  destruct (prepare_quiet _ _ _ _ _ _ _ Hprep) as [Hsent _].
  destruct (prepare_post _ _ _ _ _ _ _ Hprep) as (Hfunc & Hbody & _).
  split; [exact Hfunc|]. split; [exact Hbody|].
  split; [simpl; now rewrite Hsent|].
  unfold DatabricksHook.submit_run.
  rewrite (first_attempt_success _ _ _ _ _ _ _ _ _ _ Hprep Hnet Hstatus Hjson Hfuel).
  destruct body as [| b | n | s | items | members]; simpl; eauto.
  destruct (Json.lookup "run_id" members); reflexivity.
Qed.

Lemma submit_run_result_witness :
  DatabricksHook.submit_run
    (Sample.env Sample.basic_connection (Sample.scripted [] (Responds Sample.ok)))
    (Sample.hook 3) Sample.payload 3 Sample.fresh
  = Some (Return (JNumber 1),
          send (resolved Sample.fresh Sample.basic_connection)
            (Sample.request Sample.basic_connection requests_post
               "api/2.0/jobs/runs/submit" (BasicAuth (Some "user") (Some "secret")))).
Proof.
  refine (proj2 (proj2 (proj2 (submit_run_result
                   (Sample.env Sample.basic_connection
                      (Sample.scripted [] (Responds Sample.ok)))
                   (Sample.hook 3) Sample.payload Sample.fresh
                   (resolved Sample.fresh Sample.basic_connection)
                   (Sample.request Sample.basic_connection requests_post
                      "api/2.0/jobs/runs/submit" (BasicAuth (Some "user") (Some "secret")))
                   Sample.ok Sample.run_id_body 3 _ _ _ _ _))));
    solve [reflexivity | simpl; lia].
Defined.

(** X16. [get_run_state] asks for the run with a GET whose query parameters
    are [{'run_id': run_id}] and builds the run state from the [state]
    member of the answer: [life_cycle_state] and [state_message] as
    delivered, and [result_state] when the state has one, [None] when it has
    not. No member is checked against the recognised life cycle states. *)
Theorem get_run_state_result (env : Env) (self : DatabricksHook.t) (run_id : string)
    (w0 w : World) (req : Request) (r : Response)
    (members state : list (string * JSON)) (l m : string) (ro : option string)
    (fuel : nat) :
  DatabricksHook.prepare env self GET_RUN_ENDPOINT
    (JObject [("run_id", JString run_id)]) w0 = (Return req, w) ->
  transport env (length (sent w0)) req = Responds r ->
  200 <= status_code r < 300 ->
  json_result r = Return (JObject members) ->
  Json.lookup "state" members = Some (JObject state) ->
  Json.lookup "life_cycle_state" state = Some (JString l) ->
  Json.lookup "state_message" state = Some (JString m) ->
  Json.lookup "result_state" state = JString <$> ro ->
  (1 <= fuel)%nat ->
  exists raw : RawRunState,
    DatabricksHook.get_run_state env self run_id fuel w0
    = Some (Return raw, send w req) /\
    typed raw = Some (RunState.mk l ro m) /\
    request_func req = requests_get /\
    params req = Some (JObject [("run_id", JString run_id)]).
Proof.
  intros Hprep Hnet Hstatus Hjson Hstate Hl Hm Hr Hfuel.
  destruct (prepare_get _ _ _ _ _ _ _ Hprep) as (Hfunc & Hparams & _).
  unfold DatabricksHook.get_run_state.
  rewrite (first_attempt_success _ _ _ _ _ _ _ _ _ _ Hprep Hnet Hstatus Hjson Hfuel).
  simpl. rewrite Hstate. simpl. rewrite Hl, Hm, Hr. simpl.
  destruct ro as [x|]; simpl; eexists; repeat split; assumption.
Qed.

Lemma get_run_state_result_witness :
  exists raw : RawRunState,
    DatabricksHook.get_run_state
      (Sample.env Sample.token_connection
         (Sample.scripted []
            (Responds (Sample.responding
                         (Sample.run_state_body
                            [("life_cycle_state", JString "QUEUED");
                             ("state_message", JString "Waiting for cluster")])))))
      (Sample.hook 3) "1" 3 Sample.fresh
    = Some (Return raw,
            send (resolved Sample.fresh Sample.token_connection)
              Sample.get_run_request) /\
    typed raw = Some (RunState.mk "QUEUED" None "Waiting for cluster").
Proof.
  destruct (get_run_state_result
              (Sample.env Sample.token_connection
                 (Sample.scripted []
                    (Responds (Sample.responding
                                 (Sample.run_state_body
                                    [("life_cycle_state", JString "QUEUED");
                                     ("state_message", JString "Waiting for cluster")])))))
              (Sample.hook 3) "1" Sample.fresh
              (resolved Sample.fresh Sample.token_connection)
              Sample.get_run_request
              (Sample.responding
                 (Sample.run_state_body
                    [("life_cycle_state", JString "QUEUED");
                     ("state_message", JString "Waiting for cluster")]))
              [("job_id", JNumber 7);
               ("state", JObject [("life_cycle_state", JString "QUEUED");
                                  ("state_message", JString "Waiting for cluster")])]
              [("life_cycle_state", JString "QUEUED");
               ("state_message", JString "Waiting for cluster")]
              "QUEUED" "Waiting for cluster" None 3)
    as (raw & Hrun & Htyped & _);
    try solve [reflexivity | simpl; lia].
  exists raw. auto.
Defined.

(** X17. [get_run_state] insists on [state], [life_cycle_state] and
    [state_message]: when a decodable 2xx answer lacks one of them, the
    method raises [KeyError] for the first one missing, after the request
    has been sent. A missing [result_state] never does. *)
Theorem get_run_state_missing_key (env : Env) (self : DatabricksHook.t)
    (run_id : string) (w0 w : World) (req : Request) (r : Response)
    (members : list (string * JSON)) (fuel : nat) :
  DatabricksHook.prepare env self GET_RUN_ENDPOINT
    (JObject [("run_id", JString run_id)]) w0 = (Return req, w) ->
  transport env (length (sent w0)) req = Responds r ->
  200 <= status_code r < 300 ->
  json_result r = Return (JObject members) ->
  (1 <= fuel)%nat ->
  match Json.lookup "state" members with
  | None =>
      DatabricksHook.get_run_state env self run_id fuel w0
      = Some (Raise (Foreign "KeyError" "'state'"), send w req)
  | Some (JObject state) =>
      match Json.lookup "life_cycle_state" state, Json.lookup "state_message" state with
      | None, _ =>
          DatabricksHook.get_run_state env self run_id fuel w0
          = Some (Raise (Foreign "KeyError" "'life_cycle_state'"), send w req)
      | Some _, None =>
          DatabricksHook.get_run_state env self run_id fuel w0
          = Some (Raise (Foreign "KeyError" "'state_message'"), send w req)
      | Some l, Some m =>
          exists result_state,
            DatabricksHook.get_run_state env self run_id fuel w0
            = Some (Return {| raw_life_cycle_state := l;
                              raw_result_state := result_state;
                              raw_state_message := m |}, send w req)
      end
  | Some _ => True
  end.
Proof.
  intros Hprep Hnet Hstatus Hjson Hfuel.
  unfold DatabricksHook.get_run_state.
  rewrite (first_attempt_success _ _ _ _ _ _ _ _ _ _ Hprep Hnet Hstatus Hjson Hfuel).
  simpl.
  destruct (Json.lookup "state" members) as [[| | | | |state]|]; simpl; try exact I;
    [|reflexivity].
  destruct (Json.lookup "life_cycle_state" state) as [l|]; simpl; [|reflexivity].
  destruct (Json.lookup "result_state" state) as [x|]; simpl;
    destruct (Json.lookup "state_message" state) as [m|]; simpl; eauto.
Qed.

Lemma get_run_state_missing_key_witness :
  DatabricksHook.get_run_state
    (Sample.env Sample.token_connection
       (Sample.scripted []
          (Responds (Sample.responding
                       (Sample.run_state_body
                          [("life_cycle_state", JString "RUNNING");
                           ("result_state", JString "SUCCESS")])))))
    (Sample.hook 3) "1" 3 Sample.fresh
  = Some (Raise (Foreign "KeyError" "'state_message'"),
          send (resolved Sample.fresh Sample.token_connection) Sample.get_run_request).
Proof.
  refine (get_run_state_missing_key
            (Sample.env Sample.token_connection
               (Sample.scripted []
                  (Responds (Sample.responding
                               (Sample.run_state_body
                                  [("life_cycle_state", JString "RUNNING");
                                   ("result_state", JString "SUCCESS")])))))
            (Sample.hook 3) "1" Sample.fresh
            (resolved Sample.fresh Sample.token_connection) Sample.get_run_request
            (Sample.responding
               (Sample.run_state_body
                  [("life_cycle_state", JString "RUNNING");
                   ("result_state", JString "SUCCESS")]))
            [("job_id", JNumber 7);
             ("state", JObject [("life_cycle_state", JString "RUNNING");
                                ("result_state", JString "SUCCESS")])]
            3 _ _ _ _ _);
    solve [reflexivity | simpl; lia].
Defined.

(** X18. [cancel_run] posts [{'run_id': run_id}] as the JSON body and
    ignores what comes back: on a decodable 2xx answer to its first attempt
    it returns [None] whatever the decoded document is, object or not. *)
Theorem cancel_run_ignores_body (env : Env) (self : DatabricksHook.t)
    (run_id : string) (w0 w : World) (req : Request) (r : Response) (body : JSON)
    (fuel : nat) :
  DatabricksHook.prepare env self CANCEL_RUN_ENDPOINT
    (JObject [("run_id", JString run_id)]) w0 = (Return req, w) ->
  transport env (length (sent w0)) req = Responds r ->
  200 <= status_code r < 300 ->
  json_result r = Return body ->
  (1 <= fuel)%nat ->
  DatabricksHook.cancel_run env self run_id fuel w0 = Some (Return tt, send w req) /\
  request_func req = requests_post /\
  json_arg req = Some (JObject [("run_id", JString run_id)]) /\
  params req = None.
Proof.
  intros Hprep Hnet Hstatus Hjson Hfuel.
  split; [|exact (prepare_post _ _ _ _ _ _ _ Hprep)].
  unfold DatabricksHook.cancel_run.
  now rewrite (first_attempt_success _ _ _ _ _ _ _ _ _ _ Hprep Hnet Hstatus Hjson Hfuel).
Qed.

Lemma cancel_run_ignores_body_witness :
  DatabricksHook.cancel_run
    (Sample.env Sample.token_connection
       (Sample.scripted [] (Responds (Sample.responding (JArray [])))))
    (Sample.hook 3) "1" 3 Sample.fresh
  = Some (Return tt,
          send (resolved Sample.fresh Sample.token_connection) Sample.cancel_run_request).
Proof.
  refine (proj1 (cancel_run_ignores_body
                   (Sample.env Sample.token_connection
                      (Sample.scripted [] (Responds (Sample.responding (JArray [])))))
                   (Sample.hook 3) "1" Sample.fresh
                   (resolved Sample.fresh Sample.token_connection)
                   Sample.cancel_run_request
                   (Sample.responding (JArray [])) (JArray []) 3 _ _ _ _ _));
    solve [reflexivity | simpl; lia].
Defined.
